(** * cli-configurator: the configuration linter (package [linter]) and the
    fatal-determination loops of its two callers (cmd/cli, cmd/server).

    The Go code is embedded shallowly: Go strings are byte strings
    ([string], one [ascii] per byte), [map[string]fieldInfo] is a
    [gmap string fieldInfo], Go's [int] line counter is a [Z], and the
    issue accumulator [*[]Issue] is threaded explicitly through the
    validators.  The pieces of Go's standard library the linter calls
    (strings, strconv, bufio, fmt) are modelled in [GoLib]. *)

From stdpp Require Import base strings gmap list.
From Stdlib Require Import ZArith Ascii DecimalString.

#[local] Open Scope Z_scope.

(* ===================================================================== *)
(** ** The parts of Go's standard library used by the linter *)
(* ===================================================================== *)
Module GoLib.

Definition code (c : ascii) : nat := nat_of_ascii c.

Definition strEq (a b : string) : bool := bool_decide (a = b).

Fixpoint revOnto (s acc : string) : string :=
  match s with
  | EmptyString => acc
  | String c r => revOnto r (String c acc)
  end.

Definition rev (s : string) : string := revOnto s EmptyString.

(** [len(s)] *)
Fixpoint len (s : string) : nat :=
  match s with
  | EmptyString => O
  | String _ r => S (len r)
  end.

(** strings.HasPrefix *)
Fixpoint HasPrefix (s prefix : string) : bool :=
  match prefix, s with
  | EmptyString, _ => true
  | String p ps, String c cs => if Ascii.eqb p c then HasPrefix cs ps else false
  | String _ _, EmptyString => false
  end.

(** [s[n:]] *)
Fixpoint skip (n : nat) (s : string) : string :=
  match n, s with
  | S n', String _ r => skip n' r
  | _, _ => s
  end.

(** strings.TrimPrefix *)
Definition TrimPrefix (s prefix : string) : string :=
  if HasPrefix s prefix then skip (len prefix) s else s.

(** strings.TrimSuffix *)
Definition TrimSuffix (s suffix : string) : string :=
  rev (TrimPrefix (rev s) (rev suffix)).

(** unicode.IsSpace restricted to one byte: the ASCII white space
    '\t', '\n', '\v', '\f', '\r', ' '. *)
Definition asciiSpace (c : ascii) : bool :=
  let n := code c in
  ((9 <=? n) && (n <=? 13))%nat || (n =? 32)%nat.

(** strings.TrimSpace trims Unicode white space, read as UTF-8.  Besides the
    ASCII ones these are U+0085, U+00A0 (two bytes), U+1680, U+2000..U+200A,
    U+2028, U+2029, U+202F, U+205F and U+3000 (three bytes). [leadSpace s]
    is [s] without one leading white-space rune, when it has one. *)
Definition leadSpace (s : string) : option string :=
  match s with
  | EmptyString => None
  | String c r =>
      if asciiSpace c then Some r
      else
        match code c, r with
        | 194%nat, String d r' =>
            if (code d =? 133)%nat || (code d =? 160)%nat then Some r' else None
        | 225%nat, String d (String e r') =>
            if (code d =? 154)%nat && (code e =? 128)%nat then Some r' else None
        | 226%nat, String d (String e r') =>
            if (code d =? 128)%nat
               && (((128 <=? code e) && (code e <=? 138))%nat
                   || (code e =? 168)%nat || (code e =? 169)%nat
                   || (code e =? 175)%nat)
            then Some r'
            else if (code d =? 129)%nat && (code e =? 159)%nat then Some r'
            else None
        | 227%nat, String d (String e r') =>
            if (code d =? 128)%nat && (code e =? 128)%nat then Some r' else None
        | _, _ => None
        end
  end.

(** The same on the reversed string: one trailing white-space rune. *)
Definition trailSpace (s : string) : option string :=
  match s with
  | EmptyString => None
  | String c r =>
      if asciiSpace c then Some r
      else
        match r with
        | String d r' =>
            if (code d =? 194)%nat && ((code c =? 133)%nat || (code c =? 160)%nat)
            then Some r'
            else
              match r' with
              | String e r'' =>
                  match leadSpace (String e (String d (String c EmptyString))) with
                  | Some EmptyString => Some r''
                  | _ => None
                  end
              | EmptyString => None
              end
        | EmptyString => None
        end
  end.

Fixpoint trimWith (one : string -> option string) (fuel : nat) (s : string) : string :=
  match fuel with
  | O => s
  | S fuel' =>
      match one s with
      | Some r => trimWith one fuel' r
      | None => s
      end
  end.

Definition TrimLeftSpace (s : string) : string := trimWith leadSpace (len s) s.
Definition TrimRightSpace (s : string) : string :=
  rev (trimWith trailSpace (len s) (rev s)).

Definition TrimSpace (s : string) : string := TrimRightSpace (TrimLeftSpace s).

(** strings.Trim with an ASCII cutset: bytes of the cutset are removed from
    both ends. *)
Fixpoint inCutset (cutset : string) (c : ascii) : bool :=
  match cutset with
  | EmptyString => false
  | String k ks => Ascii.eqb k c || inCutset ks c
  end.

Fixpoint trimLeftCut (cutset s : string) : string :=
  match s with
  | EmptyString => EmptyString
  | String c r => if inCutset cutset c then trimLeftCut cutset r else s
  end.

Definition Trim (s cutset : string) : string :=
  rev (trimLeftCut cutset (rev (trimLeftCut cutset s))).

(** strings.Index for a one-byte separator, as the split it is used for:
    the text before the first [sep] and the text after it. *)
Fixpoint cutAt (sep : ascii) (s : string) : option (string * string) :=
  match s with
  | EmptyString => None
  | String c r =>
      if Ascii.eqb c sep then Some (EmptyString, r)
      else match cutAt sep r with
           | Some (a, b) => Some (String c a, b)
           | None => None
           end
  end.

(** strings.ToLower on the ASCII letters.  The linter only compares the
    result with the words true and false, and no other rune has one of
    their letters as its lower case. *)
Definition lowerByte (c : ascii) : ascii :=
  let n := code c in
  if ((65 <=? n) && (n <=? 90))%nat then ascii_of_nat (n + 32) else c.

Fixpoint ToLower (s : string) : string :=
  match s with
  | EmptyString => EmptyString
  | String c r => String (lowerByte c) (ToLower r)
  end.

(** strings.Join *)
Fixpoint Join (elems : list string) (sep : string) : string :=
  match elems with
  | [] => EmptyString
  | [a] => a
  | a :: rest => a +:+ sep +:+ Join rest sep
  end.

(** strconv.Atoi on a 64-bit platform: an optional sign, then one or more
    decimal digits; the value must fit Go's int. *)
Definition isDigit (c : ascii) : bool := ((48 <=? code c) && (code c <=? 57))%nat.

Fixpoint digitsValue (acc : Z) (s : string) : option Z :=
  match s with
  | EmptyString => Some acc
  | String c r =>
      if isDigit c then digitsValue (acc * 10 + (Z.of_nat (code c) - 48)) r
      else None
  end.

Definition unsignedValue (s : string) : option Z :=
  match s with
  | EmptyString => None
  | _ => digitsValue 0 s
  end.

Definition minInt : Z := - 2 ^ 63.
Definition maxInt : Z := 2 ^ 63 - 1.

Definition inIntRange (n : Z) : option Z :=
  if (minInt <=? n) && (n <=? maxInt) then Some n else None.

Definition Atoi (s : string) : option Z :=
  match s with
  | EmptyString => None
  | String c r =>
      if Ascii.eqb c "-" then n ← unsignedValue r; inIntRange (- n)
      else if Ascii.eqb c "+" then n ← unsignedValue r; inIntRange n
      else n ← unsignedValue s; inIntRange n
  end.

(** strconv.Quote, which fmt's %q verb applies to a string: the text is read
    as UTF-8; a quote, a backslash and the control characters are escaped,
    a byte that is no UTF-8 is written \xNN, a rune that is not printable
    \uNNNN or \UNNNNNNNN, and a printable rune is copied. *)
Definition hexDigit (n : nat) : ascii :=
  if (n <? 10)%nat then ascii_of_nat (48 + n) else ascii_of_nat (87 + n).

Definition backslash : ascii := ascii_of_nat 92.

Definition escapeHex2 (n : nat) : string :=
  String backslash (String "x" (String (hexDigit (n / 16))
                                  (String (hexDigit (n mod 16)) EmptyString))).

(** An ASCII byte. *)
Definition quoteByte (c : ascii) : string :=
  let n := code c in
  let esc (e : ascii) := String backslash (String e EmptyString) in
  if (n =? 34)%nat || (n =? 92)%nat then esc c
  else if (n =? 7)%nat then esc "a"%char
  else if (n =? 8)%nat then esc "b"%char
  else if (n =? 12)%nat then esc "f"%char
  else if (n =? 10)%nat then esc "n"%char
  else if (n =? 13)%nat then esc "r"%char
  else if (n =? 9)%nat then esc "t"%char
  else if (n =? 11)%nat then esc "v"%char
  else if (n <? 32)%nat || (n =? 127)%nat then escapeHex2 n
  else String c EmptyString.

(** utf8.DecodeRuneInString at a first byte of 0x80 or more: the rune and
    the number of bytes of its encoding, or nothing where Go yields
    RuneError with width 1 (a byte that starts no rune, a truncated or
    overlong encoding, a surrogate, a value beyond U+10FFFF). *)
Definition between (lo hi : nat) (c : ascii) : bool :=
  ((lo <=? code c) && (code c <=? hi))%nat.

Definition bitsOf (c : ascii) (base : nat) : Z := Z.of_nat (code c - base).

Definition DecodeRune (s : string) : option (Z * nat) :=
  match s with
  | String b0 (String b1 rest) =>
      let lo := if (code b0 =? 224)%nat then 160%nat
                else if (code b0 =? 240)%nat then 144%nat else 128%nat in
      let hi := if (code b0 =? 237)%nat then 159%nat
                else if (code b0 =? 244)%nat then 143%nat else 191%nat in
      if between 194 223 b0 then
        if between 128 191 b1
        then Some (bitsOf b0 192 * 64 + bitsOf b1 128, 2%nat)
        else None
      else if between 224 239 b0 then
        match rest with
        | String b2 _ =>
            if between lo hi b1 && between 128 191 b2
            then Some (bitsOf b0 224 * 4096 + bitsOf b1 128 * 64 + bitsOf b2 128,
                       3%nat)
            else None
        | EmptyString => None
        end
      else if between 240 244 b0 then
        match rest with
        | String b2 (String b3 _) =>
            if between lo hi b1 && between 128 191 b2 && between 128 191 b3
            then Some (bitsOf b0 240 * 262144 + bitsOf b1 128 * 4096
                       + bitsOf b2 128 * 64 + bitsOf b3 128, 4%nat)
            else None
        | _ => None
        end
      else None
  | _ => None
  end.

(** strconv.IsPrint: letters, marks, numbers, punctuation, symbols and the
    ASCII space.  Up to U+00FF this is Go's own test; beyond, the ranges of
    the general categories L, M, N, P and S of Unicode 14.0.0 (code points
    assigned by a later version of Unicode are not in them). *)
Definition printRanges : list (Z * Z) :=
  [(256, 887); (890, 895); (900, 906); (908, 908); (910, 929); (931, 1327);
   (1329, 1366); (1369, 1418); (1421, 1423); (1425, 1479); (1488, 1514);
   (1519, 1524); (1542, 1563); (1565, 1756); (1758, 1805); (1808, 1866);
   (1869, 1969); (1984, 2042); (2045, 2093); (2096, 2110); (2112, 2139);
   (2142, 2142); (2144, 2154); (2160, 2190); (2200, 2273); (2275, 2435);
   (2437, 2444); (2447, 2448); (2451, 2472); (2474, 2480); (2482, 2482);
   (2486, 2489); (2492, 2500); (2503, 2504); (2507, 2510); (2519, 2519);
   (2524, 2525); (2527, 2531); (2534, 2558); (2561, 2563); (2565, 2570);
   (2575, 2576); (2579, 2600); (2602, 2608); (2610, 2611); (2613, 2614);
   (2616, 2617); (2620, 2620); (2622, 2626); (2631, 2632); (2635, 2637);
   (2641, 2641); (2649, 2652); (2654, 2654); (2662, 2678); (2689, 2691);
   (2693, 2701); (2703, 2705); (2707, 2728); (2730, 2736); (2738, 2739);
   (2741, 2745); (2748, 2757); (2759, 2761); (2763, 2765); (2768, 2768);
   (2784, 2787); (2790, 2801); (2809, 2815); (2817, 2819); (2821, 2828);
   (2831, 2832); (2835, 2856); (2858, 2864); (2866, 2867); (2869, 2873);
   (2876, 2884); (2887, 2888); (2891, 2893); (2901, 2903); (2908, 2909);
   (2911, 2915); (2918, 2935); (2946, 2947); (2949, 2954); (2958, 2960);
   (2962, 2965); (2969, 2970); (2972, 2972); (2974, 2975); (2979, 2980);
   (2984, 2986); (2990, 3001); (3006, 3010); (3014, 3016); (3018, 3021);
   (3024, 3024); (3031, 3031); (3046, 3066); (3072, 3084); (3086, 3088);
   (3090, 3112); (3114, 3129); (3132, 3140); (3142, 3144); (3146, 3149);
   (3157, 3158); (3160, 3162); (3165, 3165); (3168, 3171); (3174, 3183);
   (3191, 3212); (3214, 3216); (3218, 3240); (3242, 3251); (3253, 3257);
   (3260, 3268); (3270, 3272); (3274, 3277); (3285, 3286); (3293, 3294);
   (3296, 3299); (3302, 3311); (3313, 3314); (3328, 3340); (3342, 3344);
   (3346, 3396); (3398, 3400); (3402, 3407); (3412, 3427); (3430, 3455);
   (3457, 3459); (3461, 3478); (3482, 3505); (3507, 3515); (3517, 3517);
   (3520, 3526); (3530, 3530); (3535, 3540); (3542, 3542); (3544, 3551);
   (3558, 3567); (3570, 3572); (3585, 3642); (3647, 3675); (3713, 3714);
   (3716, 3716); (3718, 3722); (3724, 3747); (3749, 3749); (3751, 3773);
   (3776, 3780); (3782, 3782); (3784, 3789); (3792, 3801); (3804, 3807);
   (3840, 3911); (3913, 3948); (3953, 3991); (3993, 4028); (4030, 4044);
   (4046, 4058); (4096, 4293); (4295, 4295); (4301, 4301); (4304, 4680);
   (4682, 4685); (4688, 4694); (4696, 4696); (4698, 4701); (4704, 4744);
   (4746, 4749); (4752, 4784); (4786, 4789); (4792, 4798); (4800, 4800);
   (4802, 4805); (4808, 4822); (4824, 4880); (4882, 4885); (4888, 4954);
   (4957, 4988); (4992, 5017); (5024, 5109); (5112, 5117); (5120, 5759);
   (5761, 5788); (5792, 5880); (5888, 5909); (5919, 5942); (5952, 5971);
   (5984, 5996); (5998, 6000); (6002, 6003); (6016, 6109); (6112, 6121);
   (6128, 6137); (6144, 6157); (6159, 6169); (6176, 6264); (6272, 6314);
   (6320, 6389); (6400, 6430); (6432, 6443); (6448, 6459); (6464, 6464);
   (6468, 6509); (6512, 6516); (6528, 6571); (6576, 6601); (6608, 6618);
   (6622, 6683); (6686, 6750); (6752, 6780); (6783, 6793); (6800, 6809);
   (6816, 6829); (6832, 6862); (6912, 6988); (6992, 7038); (7040, 7155);
   (7164, 7223); (7227, 7241); (7245, 7304); (7312, 7354); (7357, 7367);
   (7376, 7418); (7424, 7957); (7960, 7965); (7968, 8005); (8008, 8013);
   (8016, 8023); (8025, 8025); (8027, 8027); (8029, 8029); (8031, 8061);
   (8064, 8116); (8118, 8132); (8134, 8147); (8150, 8155); (8157, 8175);
   (8178, 8180); (8182, 8190); (8208, 8231); (8240, 8286); (8304, 8305);
   (8308, 8334); (8336, 8348); (8352, 8384); (8400, 8432); (8448, 8587);
   (8592, 9254); (9280, 9290); (9312, 11123); (11126, 11157); (11159, 11507);
   (11513, 11557); (11559, 11559); (11565, 11565); (11568, 11623);
   (11631, 11632); (11647, 11670); (11680, 11686); (11688, 11694);
   (11696, 11702); (11704, 11710); (11712, 11718); (11720, 11726);
   (11728, 11734); (11736, 11742); (11744, 11869); (11904, 11929);
   (11931, 12019); (12032, 12245); (12272, 12283); (12289, 12351);
   (12353, 12438); (12441, 12543); (12549, 12591); (12593, 12686);
   (12688, 12771); (12784, 12830); (12832, 42124); (42128, 42182);
   (42192, 42539); (42560, 42743); (42752, 42954); (42960, 42961);
   (42963, 42963); (42965, 42969); (42994, 43052); (43056, 43065);
   (43072, 43127); (43136, 43205); (43214, 43225); (43232, 43347);
   (43359, 43388); (43392, 43469); (43471, 43481); (43486, 43518);
   (43520, 43574); (43584, 43597); (43600, 43609); (43612, 43714);
   (43739, 43766); (43777, 43782); (43785, 43790); (43793, 43798);
   (43808, 43814); (43816, 43822); (43824, 43883); (43888, 44013);
   (44016, 44025); (44032, 55203); (55216, 55238); (55243, 55291);
   (63744, 64109); (64112, 64217); (64256, 64262); (64275, 64279);
   (64285, 64310); (64312, 64316); (64318, 64318); (64320, 64321);
   (64323, 64324); (64326, 64450); (64467, 64911); (64914, 64967);
   (64975, 64975); (65008, 65049); (65056, 65106); (65108, 65126);
   (65128, 65131); (65136, 65140); (65142, 65276); (65281, 65470);
   (65474, 65479); (65482, 65487); (65490, 65495); (65498, 65500);
   (65504, 65510); (65512, 65518); (65532, 65533); (65536, 65547);
   (65549, 65574); (65576, 65594); (65596, 65597); (65599, 65613);
   (65616, 65629); (65664, 65786); (65792, 65794); (65799, 65843);
   (65847, 65934); (65936, 65948); (65952, 65952); (66000, 66045);
   (66176, 66204); (66208, 66256); (66272, 66299); (66304, 66339);
   (66349, 66378); (66384, 66426); (66432, 66461); (66463, 66499);
   (66504, 66517); (66560, 66717); (66720, 66729); (66736, 66771);
   (66776, 66811); (66816, 66855); (66864, 66915); (66927, 66938);
   (66940, 66954); (66956, 66962); (66964, 66965); (66967, 66977);
   (66979, 66993); (66995, 67001); (67003, 67004); (67072, 67382);
   (67392, 67413); (67424, 67431); (67456, 67461); (67463, 67504);
   (67506, 67514); (67584, 67589); (67592, 67592); (67594, 67637);
   (67639, 67640); (67644, 67644); (67647, 67669); (67671, 67742);
   (67751, 67759); (67808, 67826); (67828, 67829); (67835, 67867);
   (67871, 67897); (67903, 67903); (67968, 68023); (68028, 68047);
   (68050, 68099); (68101, 68102); (68108, 68115); (68117, 68119);
   (68121, 68149); (68152, 68154); (68159, 68168); (68176, 68184);
   (68192, 68255); (68288, 68326); (68331, 68342); (68352, 68405);
   (68409, 68437); (68440, 68466); (68472, 68497); (68505, 68508);
   (68521, 68527); (68608, 68680); (68736, 68786); (68800, 68850);
   (68858, 68903); (68912, 68921); (69216, 69246); (69248, 69289);
   (69291, 69293); (69296, 69297); (69376, 69415); (69424, 69465);
   (69488, 69513); (69552, 69579); (69600, 69622); (69632, 69709);
   (69714, 69749); (69759, 69820); (69822, 69826); (69840, 69864);
   (69872, 69881); (69888, 69940); (69942, 69959); (69968, 70006);
   (70016, 70111); (70113, 70132); (70144, 70161); (70163, 70206);
   (70272, 70278); (70280, 70280); (70282, 70285); (70287, 70301);
   (70303, 70313); (70320, 70378); (70384, 70393); (70400, 70403);
   (70405, 70412); (70415, 70416); (70419, 70440); (70442, 70448);
   (70450, 70451); (70453, 70457); (70459, 70468); (70471, 70472);
   (70475, 70477); (70480, 70480); (70487, 70487); (70493, 70499);
   (70502, 70508); (70512, 70516); (70656, 70747); (70749, 70753);
   (70784, 70855); (70864, 70873); (71040, 71093); (71096, 71133);
   (71168, 71236); (71248, 71257); (71264, 71276); (71296, 71353);
   (71360, 71369); (71424, 71450); (71453, 71467); (71472, 71494);
   (71680, 71739); (71840, 71922); (71935, 71942); (71945, 71945);
   (71948, 71955); (71957, 71958); (71960, 71989); (71991, 71992);
   (71995, 72006); (72016, 72025); (72096, 72103); (72106, 72151);
   (72154, 72164); (72192, 72263); (72272, 72354); (72368, 72440);
   (72704, 72712); (72714, 72758); (72760, 72773); (72784, 72812);
   (72816, 72847); (72850, 72871); (72873, 72886); (72960, 72966);
   (72968, 72969); (72971, 73014); (73018, 73018); (73020, 73021);
   (73023, 73031); (73040, 73049); (73056, 73061); (73063, 73064);
   (73066, 73102); (73104, 73105); (73107, 73112); (73120, 73129);
   (73440, 73464); (73648, 73648); (73664, 73713); (73727, 74649);
   (74752, 74862); (74864, 74868); (74880, 75075); (77712, 77810);
   (77824, 78894); (82944, 83526); (92160, 92728); (92736, 92766);
   (92768, 92777); (92782, 92862); (92864, 92873); (92880, 92909);
   (92912, 92917); (92928, 92997); (93008, 93017); (93019, 93025);
   (93027, 93047); (93053, 93071); (93760, 93850); (93952, 94026);
   (94031, 94087); (94095, 94111); (94176, 94180); (94192, 94193);
   (94208, 100343); (100352, 101589); (101632, 101640); (110576, 110579);
   (110581, 110587); (110589, 110590); (110592, 110882); (110928, 110930);
   (110948, 110951); (110960, 111355); (113664, 113770); (113776, 113788);
   (113792, 113800); (113808, 113817); (113820, 113823); (118528, 118573);
   (118576, 118598); (118608, 118723); (118784, 119029); (119040, 119078);
   (119081, 119154); (119163, 119274); (119296, 119365); (119520, 119539);
   (119552, 119638); (119648, 119672); (119808, 119892); (119894, 119964);
   (119966, 119967); (119970, 119970); (119973, 119974); (119977, 119980);
   (119982, 119993); (119995, 119995); (119997, 120003); (120005, 120069);
   (120071, 120074); (120077, 120084); (120086, 120092); (120094, 120121);
   (120123, 120126); (120128, 120132); (120134, 120134); (120138, 120144);
   (120146, 120485); (120488, 120779); (120782, 121483); (121499, 121503);
   (121505, 121519); (122624, 122654); (122880, 122886); (122888, 122904);
   (122907, 122913); (122915, 122916); (122918, 122922); (123136, 123180);
   (123184, 123197); (123200, 123209); (123214, 123215); (123536, 123566);
   (123584, 123641); (123647, 123647); (124896, 124902); (124904, 124907);
   (124909, 124910); (124912, 124926); (124928, 125124); (125127, 125142);
   (125184, 125259); (125264, 125273); (125278, 125279); (126065, 126132);
   (126209, 126269); (126464, 126467); (126469, 126495); (126497, 126498);
   (126500, 126500); (126503, 126503); (126505, 126514); (126516, 126519);
   (126521, 126521); (126523, 126523); (126530, 126530); (126535, 126535);
   (126537, 126537); (126539, 126539); (126541, 126543); (126545, 126546);
   (126548, 126548); (126551, 126551); (126553, 126553); (126555, 126555);
   (126557, 126557); (126559, 126559); (126561, 126562); (126564, 126564);
   (126567, 126570); (126572, 126578); (126580, 126583); (126585, 126588);
   (126590, 126590); (126592, 126601); (126603, 126619); (126625, 126627);
   (126629, 126633); (126635, 126651); (126704, 126705); (126976, 127019);
   (127024, 127123); (127136, 127150); (127153, 127167); (127169, 127183);
   (127185, 127221); (127232, 127405); (127462, 127490); (127504, 127547);
   (127552, 127560); (127568, 127569); (127584, 127589); (127744, 128727);
   (128733, 128748); (128752, 128764); (128768, 128883); (128896, 128984);
   (128992, 129003); (129008, 129008); (129024, 129035); (129040, 129095);
   (129104, 129113); (129120, 129159); (129168, 129197); (129200, 129201);
   (129280, 129619); (129632, 129645); (129648, 129652); (129656, 129660);
   (129664, 129670); (129680, 129708); (129712, 129722); (129728, 129733);
   (129744, 129753); (129760, 129767); (129776, 129782); (129792, 129938);
   (129940, 129994); (130032, 130041); (131072, 173791); (173824, 177976);
   (177984, 178205); (178208, 183969); (183984, 191456); (194560, 195101);
   (196608, 201546); (917760, 917999)].

Definition IsPrint (r : Z) : bool :=
  if r <=? 255 then
    ((32 <=? r) && (r <? 127)) || ((161 <=? r) && negb (r =? 173))
  else existsb (fun range => (range.1 <=? r) && (r <=? range.2)) printRanges.

Fixpoint hexDigits (width : nat) (r : Z) : string :=
  match width with
  | O => EmptyString
  | S w => hexDigits w (r / 16) +:+ String (hexDigit (Z.to_nat (r mod 16))) EmptyString
  end.

(** A rune of U+0080 or more, [encoded] being its bytes. *)
Definition quoteRune (r : Z) (encoded : string) : string :=
  if IsPrint r then encoded
  else if r <? 65536 then String backslash (String "u" (hexDigits 4 r))
  else String backslash (String "U" (hexDigits 8 r)).

(** [s[:n]] *)
Fixpoint firstBytes (n : nat) (s : string) : string :=
  match n, s with
  | S n', String c r => String c (firstBytes n' r)
  | _, _ => EmptyString
  end.

Fixpoint quoteBody (fuel : nat) (s : string) : string :=
  match fuel, s with
  | S fuel', String c r =>
      if (code c <? 128)%nat then quoteByte c +:+ quoteBody fuel' r
      else
        match DecodeRune s with
        | Some (rune, width) =>
            quoteRune rune (firstBytes width s) +:+ quoteBody fuel' (skip width s)
        | None => escapeHex2 (code c) +:+ quoteBody fuel' r
        end
  | _, _ => EmptyString
  end.

Definition dquote : ascii := ascii_of_nat 34.

Definition Quote (s : string) : string :=
  String dquote (quoteBody (len s) s +:+ String dquote EmptyString).

(** fmt's %d verb on an int. *)
Definition formatInt (n : Z) : string := NilZero.string_of_int (Z.to_int n).

(** *** bufio.Scanner with the default split function (ScanLines) and the
    default buffer *)

Inductive error : Set :=
| ErrTooLong    (* bufio.ErrTooLong, "bufio.Scanner: token too long" *)
| ErrRead.      (* whatever os.ReadFile fails with *)

(** bufio.MaxScanTokenSize = 64 * 1024: the scanner's buffer grows to this
    size and no further. *)
Definition MaxScanTokenSize : N := 65536.

Definition newline : ascii := ascii_of_nat 10.
Definition carriageReturn : ascii := ascii_of_nat 13.

(** dropCR of bufio, on the reversed line. *)
Definition dropCR (reversed : string) : string :=
  match reversed with
  | String c r => if Ascii.eqb c carriageReturn then rev r else rev reversed
  | EmptyString => EmptyString
  end.

(** The tokens that successive calls of Scan deliver, and what Err reports
    once Scan has returned false.  [pending] holds, reversed, the [n] bytes
    of the current line that are in the buffer.  A line ends at '\n' or at
    the end of the input (an empty rest of input is no line); once the
    buffer holds MaxScanTokenSize bytes with no '\n' among them, Scan gives
    up with ErrTooLong and delivers nothing more. *)
Fixpoint scanFrom (data pending : string) (n : N) : list string * option error :=
  match data with
  | EmptyString =>
      (if (n =? 0)%N then [] else [dropCR pending], None)
  | String c rest =>
      if Ascii.eqb c newline then
        let '(tokens, err) := scanFrom rest EmptyString 0%N in
        (dropCR pending :: tokens, err)
      else if (MaxScanTokenSize <=? n + 1)%N then ([], Some ErrTooLong)
      else scanFrom rest (String c pending) (n + 1)%N
  end.

Definition scanLines (data : string) : list string * option error :=
  scanFrom data EmptyString 0%N.

(** strings.Split with a one-byte separator: the parts between the
    separators, one more than there are separators (so one empty part for
    the empty string).  [current] holds the part being read, reversed. *)
Fixpoint splitFrom (sep : ascii) (s current : string) : list string :=
  match s with
  | EmptyString => [rev current]
  | String c r =>
      if Ascii.eqb c sep then rev current :: splitFrom sep r EmptyString
      else splitFrom sep r (String c current)
  end.

Definition Split (s : string) (sep : ascii) : list string :=
  splitFrom sep s EmptyString.

End GoLib.

(* ===================================================================== *)
(** ** Package linter *)
(* ===================================================================== *)
Module Linter.
Import GoLib.

Definition Severity : Set := string.
Definition SeverityError : Severity := "error".
Definition SeverityWarning : Severity := "warn".

Definition defaultTimeout : Z := 30.

Definition allowedEnvironments : list string := ["dev"; "staging"; "prod"].

Module Issue.
Record t : Set := mk
  { Line : Z; Severity : Severity; Message : string; SuggestedFix : string }.
End Issue.

Module fieldInfo.
Record t : Set := mk { Value : string; Line : Z }.
(** Go's zero value, which a map read yields for an absent key. *)
Definition zero : t := mk EmptyString 0.
End fieldInfo.

Module featureEntry.
Record t : Type := mk { Fields : gmap string fieldInfo.t; Line : Z }.
(** [featureEntry{}]: a nil map and line 0. *)
Definition zero : t := mk ∅ 0.
End featureEntry.

Module parsedConfig.
Record t : Type := mk
  { Metadata : gmap string fieldInfo.t;
    MetadataLine : Z;
    Settings : gmap string fieldInfo.t;
    SettingsLine : Z;
    Features : list featureEntry.t;
    FeaturesLine : Z }.
End parsedConfig.

(** [len(m)] of a map, and the two-result map read [v, ok := m[k]]. *)
Definition mapLen (m : gmap string fieldInfo.t) : nat := size m.

Definition mapGet (m : gmap string fieldInfo.t) (k : string) : fieldInfo.t * bool :=
  match m !! k with
  | Some v => (v, true)
  | None => (fieldInfo.zero, false)
  end.

(** *** parseKeyValue *)
Definition parseKeyValue (line : string) : string * string * bool :=
  match cutAt ":" line with
  | None => (EmptyString, EmptyString, false)
  | Some (before, after) =>
      let quotes := String dquote "'" in
      let key := Trim (TrimSpace before) quotes in
      let value := Trim (TrimSpace after) quotes in
      let value := if strEq value "{" || strEq value "[" then EmptyString else value in
      (key, value, true)
  end.

(** *** isPositiveInt, isBool, contains *)
Definition isPositiveInt (value : string) : bool :=
  if strEq value EmptyString then false
  else
    match Atoi value with
    | None => false
    | Some _ => if strEq value "0" then false else true
    end.

Definition isBool (value : string) : bool :=
  let v := ToLower (TrimSpace value) in
  strEq v "true" || strEq v "false".

Fixpoint contains (l : list string) (value : string) : bool :=
  match l with
  | [] => false
  | v :: rest => if strEq v value then true else contains rest value
  end.

(** *** looksLikeJSON *)
Fixpoint looksLikeJSON (data : string) : bool :=
  match data with
  | EmptyString => false
  | String b rest =>
      if Ascii.eqb b " " || Ascii.eqb b newline || Ascii.eqb b carriageReturn
         || Ascii.eqb b (ascii_of_nat 9)
      then looksLikeJSON rest
      else Ascii.eqb b "{" || Ascii.eqb b "["
  end.

(** *** parseConfig: the scanning loop

    [scanState] holds the variables of the loop: [cfg], [lineNo], [section]
    and [currentFeature]. *)
Record scanState : Type := mkState
  { cfg : parsedConfig.t;
    lineNo : Z;
    section : string;
    currentFeature : featureEntry.t }.

Definition initState : scanState :=
  mkState (parsedConfig.mk ∅ 0 ∅ 0 [] 0) 0 EmptyString featureEntry.zero.

Definition withCfg (st : scanState) (c : parsedConfig.t) : scanState :=
  mkState c (lineNo st) (section st) (currentFeature st).

Definition withFeature (st : scanState) (f : featureEntry.t) : scanState :=
  mkState (cfg st) (lineNo st) (section st) f.

(** [cfg.Features = append(cfg.Features, currentFeature)] *)
Definition appendFeature (c : parsedConfig.t) (f : featureEntry.t) : parsedConfig.t :=
  parsedConfig.mk (parsedConfig.Metadata c) (parsedConfig.MetadataLine c)
    (parsedConfig.Settings c) (parsedConfig.SettingsLine c)
    (parsedConfig.Features c ++ [f]) (parsedConfig.FeaturesLine c).

Definition pendingFields (st : scanState) : bool :=
  (0 <? mapLen (featureEntry.Fields (currentFeature st)))%nat.

(** [if len(currentFeature.Fields) > 0 { append }] *)
Definition flushPending (st : scanState) : scanState :=
  if pendingFields st
  then withCfg st (appendFeature (cfg st) (currentFeature st))
  else st.

(** [if len(currentFeature.Fields) > 0 { append; currentFeature = featureEntry{} }] *)
Definition closePending (st : scanState) : scanState :=
  if pendingFields st
  then withFeature (withCfg st (appendFeature (cfg st) (currentFeature st)))
                   featureEntry.zero
  else st.

(** The body of the loop either ends early ([continue]) or goes on with the
    state and the rest of the line. *)
Inductive flow (A : Type) : Type :=
| Continue (st : scanState)
| Next (a : A).
Arguments Continue {A} st.
Arguments Next {A} a.

Definition andThen {A B} (m : flow A) (k : A -> flow B) : flow B :=
  match m with
  | Continue st => Continue st
  | Next a => k a
  end.

#[global] Instance flow_bind : MBind flow := fun A B k m => andThen m k.

Definition isBracket (clean : string) : bool :=
  strEq clean "{" || strEq clean "}" || strEq clean "[" || strEq clean "]".

(** The two blocks [if strings.HasPrefix(clean, marker) { ... }] for the
    markers "-" and "{". *)
Definition beginEntry (marker : string) (st : scanState) (clean : string)
  : flow (scanState * string) :=
  if HasPrefix clean marker then
    let st := flushPending st in
    let st := withFeature st (featureEntry.mk ∅ (lineNo st)) in
    let clean := TrimSpace (TrimPrefix clean marker) in
    if strEq clean EmptyString then Continue st else Next (st, clean)
  else Next (st, clean).

Definition featureLine (st : scanState) (clean : string) : flow (scanState * string) :=
  if strEq (section st) "features" then
    '(st, clean) ← beginEntry "-" st clean;
    '(st, clean) ← beginEntry "{" st clean;
    if strEq clean "}" then Continue (closePending st) else Next (st, clean)
  else Next (st, clean).

(** The [switch key] over the three section names, each with or without
    double quotes. *)
Definition quoted (s : string) : string := String dquote (s +:+ String dquote EmptyString).

Definition headerOf (key : string) : option string :=
  if strEq key "metadata" || strEq key (quoted "metadata") then Some "metadata"
  else if strEq key "settings" || strEq key (quoted "settings") then Some "settings"
  else if strEq key "features" || strEq key (quoted "features") then Some "features"
  else None.

(** [section = name; cfg.<Name>Line = lineNo] *)
Definition enterSection (st : scanState) (name : string) : scanState :=
  let c := cfg st in
  let n := lineNo st in
  let c' :=
    if strEq name "metadata" then
      parsedConfig.mk (parsedConfig.Metadata c) n (parsedConfig.Settings c)
        (parsedConfig.SettingsLine c) (parsedConfig.Features c) (parsedConfig.FeaturesLine c)
    else if strEq name "settings" then
      parsedConfig.mk (parsedConfig.Metadata c) (parsedConfig.MetadataLine c)
        (parsedConfig.Settings c) n (parsedConfig.Features c) (parsedConfig.FeaturesLine c)
    else
      parsedConfig.mk (parsedConfig.Metadata c) (parsedConfig.MetadataLine c)
        (parsedConfig.Settings c) (parsedConfig.SettingsLine c) (parsedConfig.Features c) n in
  mkState c' n name (currentFeature st).

Definition setMetadata (st : scanState) (key value : string) : scanState :=
  let c := cfg st in
  withCfg st
    (parsedConfig.mk (<[key := fieldInfo.mk value (lineNo st)]> (parsedConfig.Metadata c))
       (parsedConfig.MetadataLine c) (parsedConfig.Settings c)
       (parsedConfig.SettingsLine c) (parsedConfig.Features c) (parsedConfig.FeaturesLine c)).

Definition setSettings (st : scanState) (key value : string) : scanState :=
  let c := cfg st in
  withCfg st
    (parsedConfig.mk (parsedConfig.Metadata c) (parsedConfig.MetadataLine c)
       (<[key := fieldInfo.mk value (lineNo st)]> (parsedConfig.Settings c))
       (parsedConfig.SettingsLine c) (parsedConfig.Features c) (parsedConfig.FeaturesLine c)).

Definition setFeatureField (st : scanState) (key value : string) : scanState :=
  let cur :=
    if (mapLen (featureEntry.Fields (currentFeature st)) =? 0)%nat
    then featureEntry.mk ∅ (lineNo st)
    else currentFeature st in
  withFeature st
    (featureEntry.mk (<[key := fieldInfo.mk value (lineNo st)]> (featureEntry.Fields cur))
       (featureEntry.Line cur)).

(** What is left of the loop body once the key has been read. *)
Definition keyValueLine (st : scanState) (clean : string) : scanState :=
  let '(key, value, hasValue) := parseKeyValue clean in
  if strEq key EmptyString then st
  else
    match (if strEq (section st) EmptyString then headerOf key else None) with
    | Some name => enterSection st name
    | None =>
        match headerOf key with
        | Some name => enterSection st name
        | None =>
            if strEq (section st) "metadata" then
              (if hasValue then setMetadata st key value else st)
            else if strEq (section st) "settings" then
              (if hasValue then setSettings st key value else st)
            else if strEq (section st) "features" then
              (if negb hasValue then st else setFeatureField st key value)
            else st
        end
    end.

(** [lineNo++] *)
Definition nextLine (st : scanState) : scanState :=
  mkState (cfg st) (lineNo st + 1) (section st) (currentFeature st).

(** The head of the loop body: blank lines, comments and lone brackets. *)
Definition structural (st : scanState) (line : string) : flow (scanState * string) :=
  let trimmed := TrimSpace line in
  if strEq trimmed EmptyString || HasPrefix trimmed "#" then Continue st
  else
    let trimmed := TrimSuffix trimmed "," in
    let clean := TrimSpace trimmed in
    if isBracket clean then
      Continue (if strEq (section st) "features" && strEq clean "}"
                then closePending st else st)
    else Next (st, clean).

(** The loop body up to the call of parseKeyValue. *)
Definition beforeKey (st : scanState) (line : string) : flow (scanState * string) :=
  '(st, clean) ← structural (nextLine st) line;
  featureLine st clean.

(** One turn of [for scanner.Scan() { ... }] on the line [line]. *)
Definition scanLine (st : scanState) (line : string) : scanState :=
  match beforeKey st line with
  | Continue st' => st'
  | Next (st', clean) => keyValueLine st' clean
  end.

Definition parseConfig (data : string) : parsedConfig.t * option error :=
  let '(lines, err) := scanLines data in
  let st := fold_left scanLine lines initState in
  (cfg (flushPending st), err).

(** *** The validators

    Each takes the issues collected so far (Go's [issues *[]Issue]) and
    returns them with its own appended. *)
Definition report (issues : list Issue.t) (line : Z) (sev : Severity)
    (message suggestedFix : string) : list Issue.t :=
  issues ++ [Issue.mk line sev message suggestedFix].

Definition validateMetadata (cfg : parsedConfig.t) (issues : list Issue.t) : list Issue.t :=
  let baseLine := parsedConfig.MetadataLine cfg in
  let baseLine := if baseLine =? 0 then 1 else baseLine in
  if (mapLen (parsedConfig.Metadata cfg) =? 0)%nat then
    report issues baseLine SeverityError "missing metadata section"
      "Add a 'metadata' mapping with 'name' and 'env' fields"
  else
    let '(name, hasName) := mapGet (parsedConfig.Metadata cfg) "name" in
    let issues :=
      if negb hasName || strEq (fieldInfo.Value name) EmptyString then
        let nameLine := if fieldInfo.Line name =? 0 then baseLine else fieldInfo.Line name in
        report issues nameLine SeverityError "metadata.name is required"
          "Set metadata.name to a non-empty identifier, e.g. metadata.name: my-service"
      else issues in
    let '(env, hasEnv) := mapGet (parsedConfig.Metadata cfg) "env" in
    if negb hasEnv || strEq (fieldInfo.Value env) EmptyString then
      let envLine := if fieldInfo.Line env =? 0 then baseLine else fieldInfo.Line env in
      report issues envLine SeverityError "metadata.env is required"
        ("Set metadata.env to one of: " +:+ Join allowedEnvironments ", ")
    else if negb (contains allowedEnvironments (fieldInfo.Value env)) then
      report issues (fieldInfo.Line env) SeverityWarning
        ("metadata.env value " +:+ Quote (fieldInfo.Value env) +:+ " is not recognized")
        ("Use one of: " +:+ Join allowedEnvironments ", ")
    else issues.

Definition validateSettings (cfg : parsedConfig.t) (issues : list Issue.t) : list Issue.t :=
  let baseLine := parsedConfig.SettingsLine cfg in
  let baseLine := if baseLine =? 0 then 1 else baseLine in
  if (mapLen (parsedConfig.Settings cfg) =? 0)%nat then
    report issues baseLine SeverityError "missing settings section"
      "Add a 'settings' mapping with 'replicas' and 'timeout'"
  else
    let '(replicas, hasReplicas) := mapGet (parsedConfig.Settings cfg) "replicas" in
    let issues :=
      if negb hasReplicas then
        report issues baseLine SeverityError "settings.replicas is required"
          "Add settings.replicas: 1"
      else if negb (isPositiveInt (fieldInfo.Value replicas)) then
        report issues (fieldInfo.Line replicas) SeverityError
          "settings.replicas must be a positive integer" EmptyString
      else issues in
    let '(timeout, hasTimeout) := mapGet (parsedConfig.Settings cfg) "timeout" in
    if negb hasTimeout then
      report issues baseLine SeverityWarning "settings.timeout is missing; defaulting to 30"
        ("Add settings.timeout: " +:+ formatInt defaultTimeout)
    else if negb (isPositiveInt (fieldInfo.Value timeout)) then
      report issues (fieldInfo.Line timeout) SeverityWarning
        "settings.timeout should be a positive integer" EmptyString
    else issues.

(** The body of [for _, feature := range cfg.Features]. *)
Definition validateFeature (feature : featureEntry.t) (issues : list Issue.t) : list Issue.t :=
  if (mapLen (featureEntry.Fields feature) =? 0)%nat then
    report issues (featureEntry.Line feature) SeverityWarning
      "each feature entry should be a mapping" EmptyString
  else
    let '(name, hasName) := mapGet (featureEntry.Fields feature) "name" in
    let issues :=
      if negb hasName || strEq (fieldInfo.Value name) EmptyString then
        report issues (featureEntry.Line feature) SeverityWarning
          "feature entry missing name" "Add name: <feature-name>"
      else issues in
    let '(enabled, hasEnabled) := mapGet (featureEntry.Fields feature) "enabled" in
    if negb hasEnabled || negb (isBool (fieldInfo.Value enabled)) then
      report issues (featureEntry.Line feature) SeverityWarning
        "feature enabled should be true or false" EmptyString
    else issues.

Definition validateFeatures (cfg : parsedConfig.t) (issues : list Issue.t) : list Issue.t :=
  fold_left (fun acc feature => validateFeature feature acc)
    (parsedConfig.Features cfg) issues.

(** *** LintBytes and LintConfig *)
Definition LintBytes (data : string) : list Issue.t * option error :=
  let '(cfg, err) := parseConfig data in
  match err with
  | Some e => ([], Some e)
  | None =>
      let issues := [] in
      let issues := validateMetadata cfg issues in
      let issues := validateSettings cfg issues in
      let issues := validateFeatures cfg issues in
      (issues, None)
  end.

(** [file] is what os.ReadFile gets for the path: the bytes of the file, or
    nothing when the read fails. *)
Definition LintConfig (file : option string) : list Issue.t * option error :=
  match file with
  | None => ([], Some ErrRead)
  | Some data => LintBytes data
  end.

End Linter.

(* ===================================================================== *)
(** ** The callers: cmd/cli (lintOne) and cmd/server (handleLint) *)
(* ===================================================================== *)
Module Callers.
Import GoLib Linter.

(** [issue.Severity == linter.SeverityError ||
     (strict && issue.Severity == linter.SeverityWarning)] *)
Definition escalates (strict : bool) (issue : Issue.t) : bool :=
  strEq (Issue.Severity issue) SeverityError
  || (strict && strEq (Issue.Severity issue) SeverityWarning).

(** lintOne of cmd/cli, once LintConfig has returned issues and no error
    (the printing is left out): the named result [fatal] starts false; no
    issues returns false at once; otherwise the loop visits every issue and
    sets [fatal] where the test holds. *)
Definition lintOneFatal (strict : bool) (issues : list Issue.t) : bool :=
  let fatal := false in
  if (length issues =? 0)%nat then false
  else fold_left (fun fatal issue => if escalates strict issue then true else fatal)
         issues fatal.

(** lintOne: fatal and the error. *)
Definition lintOne (strict : bool) (file : option string) : bool * option error :=
  let '(issues, err) := LintConfig file in
  match err with
  | Some e => (true, Some e)
  | None => (lintOneFatal strict issues, None)
  end.

(** The loop of handleLint (and of lintHandler) in cmd/server, which leaves
    at the first issue for which the test holds. *)
Fixpoint handleLintLoop (strict : bool) (issues : list Issue.t) (fatal : bool) : bool :=
  match issues with
  | [] => fatal
  | issue :: rest =>
      if escalates strict issue then true   (* fatal = true; break *)
      else handleLintLoop strict rest fatal
  end.

Definition handleLintFatal (strict : bool) (issues : list Issue.t) : bool :=
  handleLintLoop strict issues false.

(** handleLint: the request body as decoded (nothing when it is no JSON),
    and the response without its time stamp. *)
Record LintRequest : Set := mkRequest
  { Config : string; Strict : bool; FixSuggestions : bool }.

Inductive response : Set :=
| StatusBadRequest (message : string)
| StatusInternalServerError (message : string)
| StatusOK (issues : list Issue.t) (strict fatal : bool).

Definition handleLint (body : option LintRequest) : response :=
  match body with
  | None => StatusBadRequest "Invalid JSON body"
  | Some req =>
      if strEq (TrimSpace (Config req)) EmptyString
      then StatusBadRequest "Config content cannot be empty"
      else
        let '(issues, err) := LintBytes (Config req) in
        match err with
        | Some _ => StatusInternalServerError "Internal linter error"
        | None => StatusOK issues (Strict req) (handleLintFatal (Strict req) issues)
        end
  end.

End Callers.

(* ===================================================================== *)
(** ** Notions of the specification, and the inputs of its scenarios *)
(* ===================================================================== *)
Module Spec.
Import GoLib Linter.

(** The positive-integer test as the specification words it: the text
    parses as a base-10 integer and the value is strictly positive. *)
Definition positiveInteger (value : string) : bool :=
  match Atoi value with
  | Some n => 0 <? n
  | None => false
  end.

(** A case-insensitive true/false token. *)
Definition boolToken (value : string) : Prop :=
  ToLower value = "true" ∨ ToLower value = "false".

(** The fatal-determination policy. *)
Definition fatal (strict : bool) (issues : list Issue.t) : Prop :=
  (∃ issue, issue ∈ issues ∧ Issue.Severity issue = SeverityError)
  ∨ (strict = true
     ∧ ∃ issue, issue ∈ issues ∧ Issue.Severity issue = SeverityWarning).

Definition messages (issues : list Issue.t) : list string := Issue.Message <$> issues.

(** The issues that belong to the metadata section. *)
Definition metadataMessage (message : string) : bool :=
  strEq message "missing metadata section" || HasPrefix message "metadata.".

(** The lengths of the lines of an input: the bytes between two '\n', the
    last line ending with the input.  [n] counts the current line. *)
Fixpoint lineLengths (data : string) (n : N) : list N :=
  match data with
  | EmptyString => [n]
  | String c rest =>
      if Ascii.eqb c newline then n :: lineLengths rest 0%N
      else lineLengths rest (n + 1)%N
  end.

(** The key the loop body reads on a line, when the line gets as far as
    parseKeyValue and has a key. *)
Definition keyOfLine (st : scanState) (line : string) : option string :=
  match beforeKey st line with
  | Continue _ => None
  | Next (_, clean) =>
      let '(key, _, _) := parseKeyValue clean in
      if strEq key EmptyString then None else Some key
  end.

(** The section a line is the header of. *)
Definition headerSeen (st : scanState) (line : string) : option string :=
  key ← keyOfLine st line; headerOf key.

Definition sectionLine (name : string) (c : parsedConfig.t) : Z :=
  if strEq name "metadata" then parsedConfig.MetadataLine c
  else if strEq name "settings" then parsedConfig.SettingsLine c
  else parsedConfig.FeaturesLine c.

(** The number of the last line of [lines] that is a header of section
    [name], the scan being in state [st] before them; [recorded] if there is
    none. *)
Fixpoint lastHeaderLine (name : string) (st : scanState) (lines : list string)
    (recorded : Z) : Z :=
  match lines with
  | [] => recorded
  | line :: rest =>
      lastHeaderLine name (scanLine st line) rest
        (if bool_decide (headerSeen st line = Some name)
         then lineNo st + 1 else recorded)
  end.

(** [st'] has the line counter, the section and the three header lines of
    [st]. *)
Definition sameLines (st st' : scanState) : Prop :=
  lineNo st' = lineNo st
  ∧ section st' = section st
  ∧ ∀ name, sectionLine name (cfg st') = sectionLine name (cfg st).

Definition sectionNames : list string := ["metadata"; "settings"; "features"].

(** Invariants of the scan. *)
Definition fieldsOk (m : gmap string fieldInfo.t) : Prop :=
  ∀ k f, m !! k = Some f → 1 ≤ fieldInfo.Line f.

Definition entryOk (f : featureEntry.t) : Prop :=
  featureEntry.Fields f ≠ ∅ ∧ 1 ≤ featureEntry.Line f.

Record cfgOk (c : parsedConfig.t) : Prop := mkCfgOk
  { okMetadataLine : 0 ≤ parsedConfig.MetadataLine c;
    okMetadata : fieldsOk (parsedConfig.Metadata c);
    okMetadataSeen : parsedConfig.Metadata c ≠ ∅ → 1 ≤ parsedConfig.MetadataLine c;
    okSettingsLine : 0 ≤ parsedConfig.SettingsLine c;
    okSettings : fieldsOk (parsedConfig.Settings c);
    okFeatures : Forall entryOk (parsedConfig.Features c) }.

Record stateOk (st : scanState) : Prop := mkStateOk
  { okCfg : cfgOk (cfg st);
    okLineNo : 0 ≤ lineNo st;
    okSection : section st = "metadata" → 1 ≤ parsedConfig.MetadataLine (cfg st);
    okCurrent : featureEntry.Fields (currentFeature st) ≠ ∅ →
                1 ≤ featureEntry.Line (currentFeature st) }.

(** What holds of the state inside the loop body, where [lineNo] has been
    incremented. *)
Definition inBody (st : scanState) : Prop := stateOk st ∧ 1 ≤ lineNo st.

(** A property of the state holds however a part of the loop body ends. *)
Section Flow.
Variable P : scanState → Prop.

Definition flowAll (m : flow (scanState * string)) : Prop :=
  match m with
  | Continue st => P st
  | Next (st, _) => P st
  end.

End Flow.

Definition flowOk : flow (scanState * string) → Prop := flowAll inBody.

Definition flowSame (st : scanState) : flow (scanState * string) → Prop :=
  flowAll (sameLines st).

(** A section mapping has the field [key], with a value that satisfies [P]. *)
Definition hasField (m : gmap string fieldInfo.t) (key : string)
    (P : string → Prop) : Prop :=
  ∃ f, m !! key = Some f ∧ P (fieldInfo.Value f).

Definition validMetadata (c : parsedConfig.t) : Prop :=
  hasField (parsedConfig.Metadata c) "name" (fun v => v ≠ EmptyString)
  ∧ hasField (parsedConfig.Metadata c) "env" (fun v => v ∈ allowedEnvironments).

Definition validSettings (c : parsedConfig.t) : Prop :=
  hasField (parsedConfig.Settings c) "replicas" (fun v => isPositiveInt v = true)
  ∧ hasField (parsedConfig.Settings c) "timeout" (fun v => isPositiveInt v = true).

Definition validFeature (e : featureEntry.t) : Prop :=
  hasField (featureEntry.Fields e) "name" (fun v => v ≠ EmptyString)
  ∧ hasField (featureEntry.Fields e) "enabled" (fun v => isBool v = true).

(** The messages of the settings validator and of the features validator. *)
Definition settingsMessages : list string :=
  ["missing settings section"; "settings.replicas is required";
   "settings.replicas must be a positive integer";
   "settings.timeout is missing; defaulting to 30";
   "settings.timeout should be a positive integer"].

Definition featureMessages : list string :=
  ["feature entry missing name"; "feature enabled should be true or false"].

Definition emptyEntryMessage : string := "each feature entry should be a mapping".

(** The one issue of an empty metadata mapping: at the recorded header line,
    or at line 1 when none was recorded. *)
Definition missingMetadata (c : parsedConfig.t) : Issue.t :=
  Issue.mk (if parsedConfig.MetadataLine c =? 0 then 1 else parsedConfig.MetadataLine c)
    SeverityError "missing metadata section"
    "Add a 'metadata' mapping with 'name' and 'env' fields".

(** Scenario A and Scenario B, as the package's tests write them. *)
Definition scenarioA : string := "
metadata:
  env: unknown
settings:
  replicas: 0
  timeout: -5
features:
  - enabled: maybe
".

Definition scenarioB : string := "
metadata:
  name: awesome
  env: prod
settings:
  replicas: 2
  timeout: 60
features:
  - name: featureA
    enabled: true
".

(** A feature entry whose marker stands alone on line 2. *)
Definition bareMarker : string := "features:
  -
    name: featureA
    enabled: maybe
".

(** A feature entry whose opening brace stands alone on line 2. *)
Definition bareBrace : string := "features: [
  {
    'name': 'featureA',
    'enabled': 'maybe'
  }
]
".

(** A feature entry that is opened and closed with nothing in it. *)
Definition emptyEntry : string := "features:
  -
  }
".

(** The metadata header on lines 1 and 3. *)
Definition twoHeaders : string := "metadata:
  name: awesome
metadata:
  env: prod
".

(** The settings section before the metadata section. *)
Definition settingsFirst : string := "settings:
  replicas: 0
metadata:
  env: unknown
".

(** One line of 65536 bytes. *)
Definition longLine : string := N.iter MaxScanTokenSize (String "a") EmptyString.

End Spec.

(* ===================================================================== *)
(** ** cmd/cli: main *)
(* ===================================================================== *)
Module Cli.
Import GoLib Linter Callers.

(** The loop of main over the paths given on the command line; [files]
    holds, for each path, what os.ReadFile gets for it. *)
Definition mainLoop (strict : bool) (files : list (option string)) (exitCode : Z) : Z :=
  fold_left
    (fun exitCode file =>
       let '(fatal, err) := lintOne strict file in
       match err with
       | Some _ => 2                               (* exitCode = 2; continue *)
       | None => if fatal then 2 else exitCode
       end)
    files exitCode.

(** main: the status the process exits with. *)
Definition main (strict : bool) (files : list (option string)) : Z :=
  if (length files =? 0)%nat then 1
  else mainLoop strict files 0.

End Cli.

(* ===================================================================== *)
(** ** cmd/server: configuration and middleware *)
(* ===================================================================== *)

(** What the handlers see of a request and what they write as response. *)
Module Http.
Import GoLib Linter.

Record Request : Set := mkRequest
  { Method : string;
    XAPIKey : string;          (* r.Header.Get("X-API-Key") *)
    Authorization : string;    (* r.Header.Get("Authorization") *)
    Body : option Callers.LintRequest }.

Inductive payload : Set :=
| NoBody
| ErrorBody (message : string)
| LintBody (issues : list Issue.t) (strict fatal : bool).

(** The status and the JSON payload (the time stamp of a lint response
    left out). *)
Definition reply : Set := (Z * payload)%type.

Definition Handler : Set := Request → reply.

Definition StatusOK : Z := 200.
Definition StatusNoContent : Z := 204.
Definition StatusBadRequest : Z := 400.
Definition StatusUnauthorized : Z := 401.
Definition StatusForbidden : Z := 403.
Definition StatusMethodNotAllowed : Z := 405.
Definition StatusInternalServerError : Z := 500.

End Http.

(** The server of src/cmd/server/main.go (structured logging, health
    endpoint). *)
Module Server.
Import GoLib Linter Http.

Record Config : Type := mkConfig
  { Port : string; APIKeys : gset string; StaticDir : string }.

(** The loop of loadConfig over the comma-separated keys. *)
Definition collectKeys (rawKeys : string) : gset string :=
  fold_left
    (fun keys k =>
       let trimmed := TrimSpace k in
       if strEq trimmed EmptyString then keys else {[trimmed]} ∪ keys)
    (Split rawKeys ",") ∅.

(** loadConfig; [getenv] is os.Getenv, which yields the empty string for a
    variable that is not set. *)
Definition loadConfig (getenv : string → string) : Config :=
  let port := getenv "PORT" in
  let port := if strEq port EmptyString then getenv "LINTER_SERVER_PORT" else port in
  let port := if strEq port EmptyString then "8080" else port in
  let keys := collectKeys (getenv "CONFIG_LINTER_API_KEY") in
  let staticDir := getenv "STATIC_DIR" in
  let staticDir := if strEq staticDir EmptyString then "./static" else staticDir in
  mkConfig port keys staticDir.

(** The key a request presents: the X-API-Key header, or else the token of
    an Authorization header that starts with "Bearer ". *)
Definition presentedKey (r : Request) : string :=
  let key := XAPIKey r in
  if strEq key EmptyString then
    let authHeader := Authorization r in
    if HasPrefix authHeader "Bearer "
    then TrimSpace (TrimPrefix authHeader "Bearer ")
    else key
  else key.

Definition withAPIKeyAuth (allowedKeys : gset string) (next : Handler) : Handler :=
  fun r =>
    if (size allowedKeys =? 0)%nat then next r
    else if bool_decide (presentedKey r ∈ allowedKeys) then next r
    else (StatusUnauthorized, ErrorBody "Unauthorized: Invalid or missing API Key").

(** handleLint as a handler: the response of [Callers.handleLint] with its
    status. *)
Definition handleLint : Handler :=
  fun r =>
    match Callers.handleLint (Body r) with
    | Callers.StatusBadRequest message => (StatusBadRequest, ErrorBody message)
    | Callers.StatusInternalServerError message =>
        (StatusInternalServerError, ErrorBody message)
    | Callers.StatusOK issues strict fatal => (StatusOK, LintBody issues strict fatal)
    end.

(** [withAPIKeyAuth(cfg.APIKeys, http.HandlerFunc(handleLint))] *)
Definition secured (cfg : Config) : Handler := withAPIKeyAuth (APIKeys cfg) handleLint.

End Server.

(** The second server in src/cmd/server/main.go (lintHandler). *)
Module ServerAlt.
Import GoLib Linter Http.

Definition loadAPIKeys (getenv : string → string) : gset string :=
  fold_left
    (fun keys part =>
       let key := TrimSpace part in
       if strEq key EmptyString then keys else {[key]} ∪ keys)
    (Split (getenv "CONFIG_LINTER_API_KEY") ",") ∅.

Definition presentedKey (r : Request) : string :=
  let key := XAPIKey r in
  if strEq key EmptyString then
    let auth := Authorization r in
    if HasPrefix (ToLower auth) "bearer "
    then TrimSpace (skip 7 auth)        (* auth[7:] *)
    else key
  else key.

Definition withAPIKeyAuth (allowed : gset string) (next : Handler) : Handler :=
  fun r =>
    if (size allowed =? 0)%nat
    then (StatusForbidden, ErrorBody "API key not configured")
    else if bool_decide (presentedKey r ∈ allowed) then next r
    else (StatusUnauthorized, ErrorBody "invalid api key").

Definition withCORS (next : Handler) : Handler :=
  fun r =>
    if strEq (Method r) "OPTIONS" then (StatusNoContent, NoBody)
    else next r.

(** err.Error() *)
Definition errorText (e : error) : string :=
  match e with
  | ErrTooLong => "bufio.Scanner: token too long"
  | ErrRead => "read error"       (* LintBytes never fails with it *)
  end.

Definition lintHandler : Handler :=
  fun r =>
    if negb (strEq (Method r) "POST")
    then (StatusMethodNotAllowed, ErrorBody "method not allowed")
    else
      match Body r with
      | None => (StatusBadRequest, ErrorBody "invalid request body")
      | Some req =>
          if strEq (TrimSpace (Callers.Config req)) EmptyString
          then (StatusBadRequest, ErrorBody "config body is required")
          else
            let '(issues, err) := LintBytes (Callers.Config req) in
            match err with
            | Some e => (StatusBadRequest, ErrorBody (errorText e))
            | None =>
                (StatusOK,
                 LintBody issues (Callers.Strict req)
                   (Callers.handleLintLoop (Callers.Strict req) issues false))
            end
      end.

(** [mux.Handle("/lint", withCORS(withAPIKeyAuth(keys, lintHandler)))] with
    the keys main loads. *)
Definition lintRoute (getenv : string → string) : Handler :=
  withCORS (withAPIKeyAuth (loadAPIKeys getenv) lintHandler).

End ServerAlt.

(* ===================================================================== *)
(** ** Further notions used to state properties of the code *)
(* ===================================================================== *)
Module Notions.
Import GoLib Linter Callers Spec.

(** The bytes looksLikeJSON skips. *)
Fixpoint allBlank (s : string) : Prop :=
  match s with
  | EmptyString => True
  | String c r =>
      (c = " "%char ∨ c = newline ∨ c = carriageReturn ∨ c = ascii_of_nat 9)
      ∧ allBlank r
  end.

(** The two severities the package declares. *)
Definition knownSeverity (issue : Issue.t) : Prop :=
  Issue.Severity issue = SeverityError ∨ Issue.Severity issue = SeverityWarning.

(** A file makes the command-line run fail: it cannot be read, the scan
    fails, or its issues are fatal. *)
Definition fileFails (strict : bool) (file : option string) : Prop :=
  match file with
  | None => True
  | Some data => (LintBytes data).2 ≠ None ∨ fatal strict (LintBytes data).1
  end.

(** The loop that collects the keys, in both servers. *)
Definition keyLoop (parts : list string) (keys : gset string) : gset string :=
  fold_left
    (fun keys k =>
       let trimmed := TrimSpace k in
       if strEq trimmed EmptyString then keys else {[trimmed]} ∪ keys)
    parts keys.

(** What the loop of main tests of a file. *)
Definition failed (strict : bool) (file : option string) : bool :=
  let '(fatal, err) := lintOne strict file in
  match err with
  | Some _ => true
  | None => fatal
  end.

(** A line the loop skips: blank, or a comment. *)
Definition blankOrComment (line : string) : Prop :=
  TrimSpace line = EmptyString ∨ HasPrefix (TrimSpace line) "#" = true.

(** The two issues of an input in which no section was found. *)
Definition missingSections : list Issue.t :=
  [Issue.mk 1 SeverityError "missing metadata section"
     "Add a 'metadata' mapping with 'name' and 'env' fields";
   Issue.mk 1 SeverityError "missing settings section"
     "Add a 'settings' mapping with 'replicas' and 'timeout'"].

(** The input with every line feed turned into carriage return, line
    feed. *)
Fixpoint toCRLF (data : string) : string :=
  match data with
  | EmptyString => EmptyString
  | String c rest =>
      if Ascii.eqb c newline
      then String carriageReturn (String newline (toCRLF rest))
      else String c (toCRLF rest)
  end.

Fixpoint noCR (data : string) : Prop :=
  match data with
  | EmptyString => True
  | String c rest => c ≠ carriageReturn ∧ noCR rest
  end.

(** Every line number the scan has recorded is at most [n], and a section
    has content only when its header was seen. *)
Definition fieldsUpTo (n : Z) (m : gmap string fieldInfo.t) : Prop :=
  ∀ k f, m !! k = Some f → fieldInfo.Line f ≤ n.

Record cfgUpTo (n : Z) (c : parsedConfig.t) : Prop := mkCfgUpTo
  { upMetadataLine : parsedConfig.MetadataLine c ≤ n;
    upMetadata : fieldsUpTo n (parsedConfig.Metadata c);
    upSettingsLine : parsedConfig.SettingsLine c ≤ n;
    upSettings : fieldsUpTo n (parsedConfig.Settings c);
    upSettingsSeen : parsedConfig.Settings c ≠ ∅ → 1 ≤ parsedConfig.SettingsLine c;
    upFeaturesLine : parsedConfig.FeaturesLine c ≤ n;
    upFeatures : Forall (fun e => featureEntry.Line e ≤ n) (parsedConfig.Features c);
    upFeaturesSeen : parsedConfig.Features c ≠ [] → 1 ≤ parsedConfig.FeaturesLine c }.

Record stateUpTo (st : scanState) : Prop := mkStateUpTo
  { upCfg : cfgUpTo (lineNo st) (cfg st);
    upSectionSettings :
      section st = "settings" → 1 ≤ parsedConfig.SettingsLine (cfg st);
    upSectionFeatures :
      section st = "features" → 1 ≤ parsedConfig.FeaturesLine (cfg st);
    upCurrent :
      featureEntry.Fields (currentFeature st) ≠ ∅ →
      featureEntry.Line (currentFeature st) ≤ lineNo st
      ∧ 1 ≤ parsedConfig.FeaturesLine (cfg st) }.

Definition upToBody (st : scanState) : Prop := stateUpTo st ∧ 1 ≤ lineNo st.

Definition flowUpTo : flow (scanState * string) → Prop := flowAll upToBody.

(** The errors for settings.replicas and metadata.name. *)
Definition replicasError (line : Z) : Issue.t :=
  Issue.mk line SeverityError "settings.replicas must be a positive integer" EmptyString.

Definition nameError (line : Z) : Issue.t :=
  Issue.mk line SeverityError "metadata.name is required"
    "Set metadata.name to a non-empty identifier, e.g. metadata.name: my-service".

(** A config that lacks nothing but settings.timeout. *)
Definition onlyTimeoutMissing (c : parsedConfig.t) : Prop :=
  validMetadata c
  ∧ hasField (parsedConfig.Settings c) "replicas" (fun v => isPositiveInt v = true)
  ∧ parsedConfig.Settings c !! "timeout" = None
  ∧ Forall validFeature (parsedConfig.Features c).

Definition timeoutWarning (c : parsedConfig.t) : Issue.t :=
  Issue.mk (parsedConfig.SettingsLine c) SeverityWarning
    "settings.timeout is missing; defaulting to 30" "Add settings.timeout: 30".

(** The first byte of a text is no quote character. *)
Definition unquotedStart (s : string) : Prop :=
  ∀ c r, s = String c r → c ≠ dquote ∧ c ≠ "'"%char.

(** A line feed, as a separator. *)
Definition lineFeed : string := String newline EmptyString.

(** The last bytes read of a line are no carriage return. *)
Definition noCRFirst (s : string) : Prop :=
  match s with
  | EmptyString => True
  | String c _ => c ≠ carriageReturn
  end.

(** Inputs for the witnesses. *)
Definition commentsOnly : string := "# nothing here

   # yet
".

Definition noTimeout : string := "metadata:
  name: awesome
  env: prod
settings:
  replicas: 2
".

Definition badFeature : string := "metadata:
  name: awesome
  env: prod
settings:
  replicas: 2
  timeout: 60
features:
  - enabled: maybe
".

Definition keysOf (raw : string) : string → string :=
  fun name => if strEq name "CONFIG_LINTER_API_KEY" then raw else EmptyString.

Definition bareRequest : Http.Request :=
  Http.mkRequest "POST" EmptyString EmptyString None.

End Notions.

(* ===================================================================== *)
(** ** The callers' fatal determination *)
(* ===================================================================== *)
Module CallerFacts.
Import GoLib Linter Callers Spec.

Lemma strEq_true (a b : string) : strEq a b = true ↔ a = b.
Proof. unfold strEq. apply bool_decide_eq_true. Qed.

Lemma escalates_spec (strict : bool) (issue : Issue.t) :
  escalates strict issue = true ↔
  Issue.Severity issue = SeverityError
  ∨ (strict = true ∧ Issue.Severity issue = SeverityWarning).
Proof.
  unfold escalates.
  rewrite orb_true_iff, andb_true_iff, !strEq_true. tauto.
Qed.

Lemma lintOne_loop (strict : bool) (issues : list Issue.t) (fatal : bool) :
  fold_left (fun fatal issue => if escalates strict issue then true else fatal)
    issues fatal
  = fatal || existsb (escalates strict) issues.
Proof.
  revert fatal. induction issues as [|issue rest IH]; intros fatal; simpl.
  - by rewrite orb_false_r.
  - rewrite IH. destruct (escalates strict issue), fatal; simpl; try done.
Qed.

Lemma handleLint_loop (strict : bool) (issues : list Issue.t) :
  handleLintLoop strict issues false = existsb (escalates strict) issues.
Proof.
  induction issues as [|issue rest IH]; simpl; [done|].
  by destruct (escalates strict issue).
Qed.

Lemma existsb_escalates (strict : bool) (issues : list Issue.t) :
  existsb (escalates strict) issues = true ↔ fatal strict issues.
Proof.
  rewrite existsb_exists. unfold fatal. split.
  - intros (issue & Hin & Hesc). apply list_elem_of_In in Hin.
    apply escalates_spec in Hesc as [He|[Hs Hw]]; [left|right]; eauto.
  - intros [(issue & Hin & He)|(Hs & issue & Hin & Hw)];
      exists issue; (split; [by apply list_elem_of_In|]);
      apply escalates_spec; auto.
Qed.

(** C8: for every issue list and every value of the strict flag, lintOne
    (cmd/cli) and handleLint (cmd/server) both report fatal exactly when some
    issue has severity error, or strict is set and some issue has severity
    warn. *)
Theorem fatal_determination (strict : bool) (issues : list Issue.t) :
  (lintOneFatal strict issues = true ↔ fatal strict issues)
  ∧ (handleLintFatal strict issues = true ↔ fatal strict issues).
Proof.
  split.
  - unfold lintOneFatal. rewrite lintOne_loop. simpl.
    destruct issues as [|issue rest]; [|apply existsb_escalates].
    simpl. rewrite <- existsb_escalates. done.
  - unfold handleLintFatal. rewrite handleLint_loop. apply existsb_escalates.
Qed.

End CallerFacts.

(* ===================================================================== *)
(** ** The validators and the issue collector *)
(* ===================================================================== *)
Module ValidatorFacts.
Import GoLib Linter Spec.
Import CallerFacts.

(** Every validator only appends to the issues it is given. *)
Ltac appended :=
  unfold report; repeat case_match; simplify_eq;
  rewrite ?app_nil_l, ?app_nil_r, <- ?app_assoc; try done.

Lemma validateMetadata_appends cfg issues :
  validateMetadata cfg issues = issues ++ validateMetadata cfg [].
Proof. unfold validateMetadata. appended. Qed.

Lemma validateSettings_appends cfg issues :
  validateSettings cfg issues = issues ++ validateSettings cfg [].
Proof. unfold validateSettings. appended. Qed.

Lemma validateFeature_appends feature issues :
  validateFeature feature issues = issues ++ validateFeature feature [].
Proof. unfold validateFeature. appended. Qed.

Lemma validateFeatures_fold features issues :
  fold_left (fun acc feature => validateFeature feature acc) features issues
  = issues ++ concat ((fun feature => validateFeature feature []) <$> features).
Proof.
  revert issues. induction features as [|feature rest IH]; intros issues; simpl.
  - by rewrite app_nil_r.
  - rewrite IH, (validateFeature_appends feature issues). by rewrite <- app_assoc.
Qed.

Lemma validateFeatures_appends cfg issues :
  validateFeatures cfg issues = issues ++ validateFeatures cfg [].
Proof.
  unfold validateFeatures.
  by rewrite validateFeatures_fold, (validateFeatures_fold _ []).
Qed.

Lemma LintBytes_unfold data :
  LintBytes data =
  match (parseConfig data).2 with
  | Some e => ([], Some e)
  | None =>
      (validateMetadata (parseConfig data).1 []
         ++ validateSettings (parseConfig data).1 []
         ++ validateFeatures (parseConfig data).1 [], None)
  end.
Proof.
  unfold LintBytes. destruct (parseConfig data) as [cfg [e|]]; simpl; [done|].
  rewrite validateFeatures_appends, validateSettings_appends.
  by rewrite <- app_assoc.
Qed.

(** C7: the issue sequence LintBytes returns is the metadata validator's
    issues, then the settings validator's, then the features validator's,
    in that order and not sorted by line. *)
Theorem LintBytes_section_order data issues :
  LintBytes data = (issues, None) →
  issues = validateMetadata (parseConfig data).1 []
             ++ validateSettings (parseConfig data).1 []
             ++ validateFeatures (parseConfig data).1 [].
Proof.
  rewrite LintBytes_unfold. destruct (parseConfig data).2; congruence.
Qed.

Lemma LintBytes_section_order_witness :
  ∃ issues, LintBytes settingsFirst = (issues, None)
    ∧ (Issue.Line <$> issues) = [3; 4; 2; 1]
    ∧ issues = validateMetadata (parseConfig settingsFirst).1 []
                 ++ validateSettings (parseConfig settingsFirst).1 []
                 ++ validateFeatures (parseConfig settingsFirst).1 [].
Proof.
  eexists. split; [vm_compute; reflexivity|].
  split; [vm_compute; reflexivity|].
  apply (LintBytes_section_order settingsFirst). vm_compute. reflexivity.
Defined.

End ValidatorFacts.

(* ===================================================================== *)
(** ** The scanning loop *)
(* ===================================================================== *)
Module ParserFacts.
Import GoLib Linter Spec.
Import CallerFacts.

Lemma mapLen_zero (m : gmap string fieldInfo.t) :
  (mapLen m =? 0)%nat = true ↔ m = ∅.
Proof. unfold mapLen. rewrite Nat.eqb_eq. apply map_size_empty_iff. Qed.

Lemma mapLen_nonzero (m : gmap string fieldInfo.t) :
  (mapLen m =? 0)%nat = false ↔ m ≠ ∅.
Proof. rewrite <- mapLen_zero. by destruct (mapLen m =? 0)%nat. Qed.

Lemma pendingFields_true st :
  pendingFields st = true ↔ featureEntry.Fields (currentFeature st) ≠ ∅.
Proof.
  unfold pendingFields, mapLen. rewrite Nat.ltb_lt, <- map_size_empty_iff. lia.
Qed.

Section FlowFacts.
Variable P : scanState → Prop.

Lemma flowAll_bind m k :
  flowAll P m → (∀ st clean, P st → flowAll P (k (st, clean))) →
  flowAll P (m ≫= k).
Proof. destruct m as [st|[st clean]]; simpl; auto. Qed.

Lemma flowAll_mono (Q : scanState → Prop) m :
  (∀ st, P st → Q st) → flowAll P m → flowAll Q m.
Proof. intros HPQ. destruct m as [st|[st clean]]; simpl; auto. Qed.

End FlowFacts.

Lemma flowOk_bind m k :
  flowOk m → (∀ st clean, inBody st → flowOk (k (st, clean))) → flowOk (m ≫= k).
Proof. apply flowAll_bind. Qed.

Lemma nextLine_ok st : stateOk st → inBody (nextLine st).
Proof.
  intros [Hc Hn Hs Hf]. split; [split|]; simpl; auto; lia.
Qed.

Lemma appendFeature_ok c f : cfgOk c → entryOk f → cfgOk (appendFeature c f).
Proof.
  intros [] Hf. split; simpl; auto.
  apply Forall_app. split; [done|]. by constructor.
Qed.

Lemma flushPending_ok st : inBody st → inBody (flushPending st).
Proof.
  intros [[Hc Hn Hs Hf] Hl]. unfold flushPending.
  destruct (pendingFields st) eqn:Hp; [|by split; [split|]].
  apply pendingFields_true in Hp.
  split; [split|]; simpl; auto.
  apply appendFeature_ok; [done|]. split; auto.
Qed.

Lemma flushPending_cfgOk st : stateOk st → cfgOk (cfg (flushPending st)).
Proof.
  intros [Hc Hn Hs Hf]. unfold flushPending.
  destruct (pendingFields st) eqn:Hp; [|done].
  apply pendingFields_true in Hp. simpl.
  apply appendFeature_ok; [done|]. split; auto.
Qed.

Lemma closePending_ok st : inBody st → inBody (closePending st).
Proof.
  intros [[Hc Hn Hs Hf] Hl]. unfold closePending.
  destruct (pendingFields st) eqn:Hp; [|by split; [split|]].
  apply pendingFields_true in Hp.
  split; [split|]; simpl; auto.
  - apply appendFeature_ok; [done|]. split; auto.
  - intros Hne. by destruct Hne.
Qed.

Lemma beginEntry_ok marker st clean :
  inBody st → flowOk (beginEntry marker st clean).
Proof.
  intros Hst. unfold beginEntry.
  destruct (HasPrefix clean marker); [|done].
  assert (inBody (withFeature (flushPending st)
                    (featureEntry.mk ∅ (lineNo (flushPending st))))) as Hok.
  { destruct (flushPending_ok st Hst) as [[Hc Hn Hs Hf] Hl].
    split; [split|]; simpl; auto. }
  by destruct (strEq _ _).
Qed.

Lemma featureLine_ok st clean : inBody st → flowOk (featureLine st clean).
Proof.
  intros Hst. unfold featureLine.
  destruct (strEq (section st) "features"); [|done].
  apply flowOk_bind; [by apply beginEntry_ok|].
  intros st1 clean1 Hst1.
  apply flowOk_bind; [by apply beginEntry_ok|].
  intros st2 clean2 Hst2.
  destruct (strEq clean2 "}"); simpl; [by apply closePending_ok|done].
Qed.

Lemma structural_ok st line : inBody st → flowOk (structural st line).
Proof.
  intros Hst. unfold structural.
  destruct (_ || _); [done|].
  destruct (isBracket _); [|done].
  destruct (_ && _); simpl; [by apply closePending_ok|done].
Qed.

Lemma beforeKey_ok st line : stateOk st → flowOk (beforeKey st line).
Proof.
  intros Hst. unfold beforeKey.
  apply flowOk_bind; [by apply structural_ok, nextLine_ok|].
  intros st1 clean1 Hst1. by apply featureLine_ok.
Qed.

Lemma enterSection_ok st name : inBody st → inBody (enterSection st name).
Proof.
  intros [[[] Hn Hs Hf] Hl]. unfold enterSection, strEq.
  repeat case_bool_decide; subst;
    (split; [split; [split|..]|]); simpl; auto; try lia; try done.
Qed.

Lemma fieldsOk_insert m key value n :
  fieldsOk m → 1 ≤ n → fieldsOk (<[key := fieldInfo.mk value n]> m).
Proof.
  intros Hm Hn k f. rewrite lookup_insert. case_decide.
  - intros [= <-]. done.
  - apply Hm.
Qed.

Lemma setMetadata_ok st key value :
  inBody st → section st = "metadata" → inBody (setMetadata st key value).
Proof.
  intros [[[] Hn Hs Hf] Hl] Hsec. unfold setMetadata.
  split; [split; [split|..]|]; simpl in *; auto.
  by apply fieldsOk_insert.
Qed.

Lemma setSettings_ok st key value : inBody st → inBody (setSettings st key value).
Proof.
  intros [[[] Hn Hs Hf] Hl]. unfold setSettings.
  split; [split; [split|..]|]; simpl in *; auto.
  by apply fieldsOk_insert.
Qed.

Lemma setFeatureField_ok st key value :
  inBody st → inBody (setFeatureField st key value).
Proof.
  intros [[Hc Hn Hs Hf] Hl]. unfold setFeatureField.
  split; [split|]; simpl; auto.
  intros _. destruct (mapLen _ =? 0)%nat eqn:Hlen; simpl; [done|].
  by apply Hf, mapLen_nonzero.
Qed.

Lemma keyValueLine_ok st clean : inBody st → inBody (keyValueLine st clean).
Proof.
  intros Hst. unfold keyValueLine.
  destruct (parseKeyValue clean) as [[key value] hasValue].
  destruct (strEq key EmptyString); [done|].
  destruct (if strEq (section st) EmptyString then headerOf key else None);
    [by apply enterSection_ok|].
  destruct (headerOf key); [by apply enterSection_ok|].
  destruct (strEq (section st) "metadata") eqn:Hm.
  { apply strEq_true in Hm. destruct hasValue; [by apply setMetadata_ok|done]. }
  destruct (strEq (section st) "settings").
  { destruct hasValue; [by apply setSettings_ok|done]. }
  destruct (strEq (section st) "features"); [|done].
  destruct hasValue; simpl; [by apply setFeatureField_ok|done].
Qed.

Lemma scanLine_ok st line : stateOk st → stateOk (scanLine st line).
Proof.
  intros Hst. unfold scanLine.
  pose proof (beforeKey_ok st line Hst) as Hflow.
  destruct (beforeKey st line) as [st'|[st' clean]]; simpl in Hflow.
  - apply Hflow.
  - by apply keyValueLine_ok.
Qed.

Lemma initState_ok : stateOk initState.
Proof.
  split; [split|..]; simpl; done.
Qed.

Lemma scan_ok lines st : stateOk st → stateOk (fold_left scanLine lines st).
Proof.
  revert st. induction lines as [|line rest IH]; intros st Hst; simpl; [done|].
  by apply IH, scanLine_ok.
Qed.

(** Whatever the input, the parsed config is well formed: recorded lines are
    real line numbers, fields are stored only under a section header that
    was seen, and every feature entry has a field. *)
Lemma parseConfig_ok data : cfgOk (parseConfig data).1.
Proof.
  unfold parseConfig. destruct (scanLines data) as [lines err]. simpl.
  apply flushPending_cfgOk, scan_ok, initState_ok.
Qed.

(** *** The recorded header lines *)

Lemma sameLines_refl st : sameLines st st.
Proof. by repeat split. Qed.

Lemma sameLines_trans st1 st2 st3 :
  sameLines st1 st2 → sameLines st2 st3 → sameLines st1 st3.
Proof.
  intros (Hn & Hs & Hl) (Hn' & Hs' & Hl').
  split; [congruence|]. split; [congruence|].
  intros name. by rewrite Hl'.
Qed.

Lemma flowSame_bind st m k :
  flowSame st m → (∀ st' clean, sameLines st st' → flowSame st (k (st', clean))) →
  flowSame st (m ≫= k).
Proof. apply flowAll_bind. Qed.

Lemma flowSame_trans st1 st2 m :
  sameLines st1 st2 → flowSame st2 m → flowSame st1 m.
Proof.
  intros H12. apply flowAll_mono. intros st3. by apply sameLines_trans.
Qed.

Lemma flushPending_same st : sameLines st (flushPending st).
Proof. unfold flushPending. destruct (pendingFields st); by repeat split. Qed.

Lemma closePending_same st : sameLines st (closePending st).
Proof. unfold closePending. destruct (pendingFields st); by repeat split. Qed.

Lemma beginEntry_same marker st clean : flowSame st (beginEntry marker st clean).
Proof.
  unfold beginEntry. destruct (HasPrefix clean marker); [|apply sameLines_refl].
  assert (sameLines st (withFeature (flushPending st)
                          (featureEntry.mk ∅ (lineNo (flushPending st))))) as Hs.
  { eapply sameLines_trans; [apply flushPending_same|]. by repeat split. }
  by destruct (strEq _ _).
Qed.

Lemma featureLine_same st clean : flowSame st (featureLine st clean).
Proof.
  unfold featureLine.
  destruct (strEq (section st) "features"); [|apply sameLines_refl].
  apply flowSame_bind; [apply beginEntry_same|].
  intros st1 clean1 H1.
  apply flowSame_bind.
  { eapply flowSame_trans; [done|apply beginEntry_same]. }
  intros st2 clean2 H2.
  destruct (strEq clean2 "}"); simpl; [|done].
  eapply sameLines_trans; [done|apply closePending_same].
Qed.

Lemma structural_same st line : flowSame st (structural st line).
Proof.
  unfold structural.
  destruct (_ || _); [apply sameLines_refl|].
  destruct (isBracket _); [|apply sameLines_refl].
  destruct (_ && _); simpl; [apply closePending_same|apply sameLines_refl].
Qed.

Lemma beforeKey_same st line : flowSame (nextLine st) (beforeKey st line).
Proof.
  unfold beforeKey.
  apply flowSame_bind; [apply structural_same|].
  intros st1 clean1 H1.
  eapply flowSame_trans; [done|apply featureLine_same].
Qed.

Lemma headerOf_name key name : headerOf key = Some name → name ∈ sectionNames.
Proof.
  unfold headerOf, sectionNames. repeat case_match; intros [= <-]; set_solver.
Qed.

Lemma enterSection_lines st name :
  name ∈ sectionNames →
  section (enterSection st name) = name
  ∧ lineNo (enterSection st name) = lineNo st
  ∧ sectionLine name (cfg (enterSection st name)) = lineNo st
  ∧ ∀ other, other ∈ sectionNames → other ≠ name →
      sectionLine other (cfg (enterSection st name)) = sectionLine other (cfg st).
Proof.
  intros Hname. unfold sectionNames in *.
  repeat split; try done.
  - apply elem_of_cons in Hname as [->|Hname]; [done|].
    apply elem_of_cons in Hname as [->|Hname]; [done|].
    apply list_elem_of_singleton in Hname as ->. done.
  - intros other Hother Hne.
    repeat (apply elem_of_cons in Hname as [->|Hname];
            [repeat (apply elem_of_cons in Hother as [->|Hother]; [done|]);
             by apply elem_of_nil in Hother|]).
    by apply elem_of_nil in Hname.
Qed.

Lemma keyValueLine_plain st clean :
  (let '(key, _, _) := parseKeyValue clean in
   strEq key EmptyString = true ∨ headerOf key = None) →
  sameLines st (keyValueLine st clean).
Proof.
  unfold keyValueLine.
  destruct (parseKeyValue clean) as [[key value] hasValue].
  intros [->| ->]; [apply sameLines_refl|].
  destruct (strEq key EmptyString); [apply sameLines_refl|].
  assert ((if strEq (section st) EmptyString then None else None)
          = (None : option string)) as -> by by destruct (strEq _ _).
  repeat case_match; by repeat split.
Qed.

Lemma keyValueLine_header st clean key value hasValue name :
  parseKeyValue clean = (key, value, hasValue) →
  strEq key EmptyString = false →
  headerOf key = Some name →
  keyValueLine st clean = enterSection st name.
Proof.
  intros Hkv Hkey Hhead. unfold keyValueLine. rewrite Hkv, Hkey, Hhead.
  by destruct (strEq (section st) EmptyString).
Qed.

(** One turn of the loop: a header line switches the section and records
    the current line number, whatever was recorded before; every other
    line leaves the three recorded lines as they are. *)
Lemma scanLine_lines st line :
  lineNo (scanLine st line) = lineNo st + 1
  ∧ match headerSeen st line with
    | Some name =>
        section (scanLine st line) = name
        ∧ sectionLine name (cfg (scanLine st line)) = lineNo st + 1
        ∧ ∀ other, other ∈ sectionNames → other ≠ name →
            sectionLine other (cfg (scanLine st line)) = sectionLine other (cfg st)
    | None =>
        ∀ name, sectionLine name (cfg (scanLine st line)) = sectionLine name (cfg st)
    end.
Proof.
  unfold scanLine, headerSeen, keyOfLine.
  pose proof (beforeKey_same st line) as Hsame.
  destruct (beforeKey st line) as [st'|[st' clean]]; simpl in *.
  { destruct Hsame as (Hn & _ & Hl). split; [done|]. intros name. apply Hl. }
  destruct Hsame as (Hn & Hs & Hl). simpl in Hn.
  destruct (parseKeyValue clean) as [[key value] hasValue] eqn:Hkv.
  destruct (strEq key EmptyString) eqn:Hkey; simpl.
  { destruct (keyValueLine_plain st' clean) as (Hn' & _ & Hl').
    { rewrite Hkv. by left. }
    split; [congruence|]. intros name. by rewrite Hl'. }
  destruct (headerOf key) as [name|] eqn:Hhead.
  - rewrite (keyValueLine_header st' clean key value hasValue name) by done.
    destruct (enterSection_lines st' name) as (Es & En & El & Eo);
      [by eapply headerOf_name|].
    split; [congruence|]. split; [done|]. split; [congruence|].
    intros other Hother Hne. rewrite Eo by done. apply Hl.
  - destruct (keyValueLine_plain st' clean) as (Hn' & _ & Hl').
    { rewrite Hkv. by right. }
    split; [congruence|]. intros name. by rewrite Hl'.
Qed.

Lemma scan_lastHeaderLine name lines st :
  name ∈ sectionNames →
  sectionLine name (cfg (flushPending (fold_left scanLine lines st)))
  = lastHeaderLine name st lines (sectionLine name (cfg st)).
Proof.
  intros Hname. revert st.
  induction lines as [|line rest IH]; intros st; simpl.
  { by destruct (flushPending_same st) as (_ & _ & ->). }
  rewrite IH. f_equal.
  destruct (scanLine_lines st line) as [_ Hline].
  case_bool_decide as Hseen.
  - rewrite Hseen in Hline. by destruct Hline as (_ & -> & _).
  - destruct (headerSeen st line) as [nm|]; [|done].
    destruct Hline as (_ & _ & Ho). apply Ho; [done|congruence].
Qed.

End ParserFacts.

(* ===================================================================== *)
(** ** The line scanner *)
(* ===================================================================== *)
Module ScannerFacts.
Import GoLib Linter Spec.

Lemma lineLengths_first data n :
  ∃ k rest, lineLengths data n = k :: rest ∧ (n ≤ k)%N.
Proof.
  revert n. induction data as [|c data IH]; intros n; simpl.
  - exists n, []. split; [done|lia].
  - destruct (Ascii.eqb c newline).
    + exists n, (lineLengths data 0%N). split; [done|lia].
    + destruct (IH (n + 1)%N) as (k & rest & -> & Hk).
      exists k, rest. split; [done|lia].
Qed.

(** No line of 65536 bytes or more: the scanner reports no error. *)
Lemma scanFrom_short data pending n :
  Forall (fun k => (k < MaxScanTokenSize)%N) (lineLengths data n) →
  (scanFrom data pending n).2 = None.
Proof.
  revert pending n. induction data as [|c data IH]; intros pending n; simpl.
  - done.
  - destruct (Ascii.eqb c newline).
    + intros Hall. apply Forall_cons in Hall as [_ Hall].
      specialize (IH EmptyString 0%N Hall).
      by destruct (scanFrom data EmptyString 0%N).
    + intros Hall.
      destruct (lineLengths_first data (n + 1)%N) as (k & rest & Hk & Hle).
      rewrite Hk in Hall.
      assert (k < MaxScanTokenSize)%N as Hlt by by inversion Hall.
      destruct (MaxScanTokenSize <=? n + 1)%N eqn:Hfull.
      * apply N.leb_le in Hfull. lia.
      * apply IH. by rewrite Hk.
Qed.

(** A line of 65536 bytes or more: the scanner gives up with ErrTooLong. *)
Lemma scanFrom_long data pending n :
  (n < MaxScanTokenSize)%N →
  Exists (fun k => (MaxScanTokenSize ≤ k)%N) (lineLengths data n) →
  (scanFrom data pending n).2 = Some ErrTooLong.
Proof.
  revert pending n. induction data as [|c data IH]; intros pending n Hn; simpl.
  - intros Hex. apply Exists_cons in Hex as [Hk|Hex]; [lia|].
    by apply Exists_nil in Hex.
  - destruct (Ascii.eqb c newline).
    + intros Hex. apply Exists_cons in Hex as [Hk|Hex]; [lia|].
      assert (0 < MaxScanTokenSize)%N as H0 by done.
      specialize (IH EmptyString 0%N H0 Hex).
      by destruct (scanFrom data EmptyString 0%N).
    + intros Hex.
      destruct (MaxScanTokenSize <=? n + 1)%N eqn:Hfull; [done|].
      apply N.leb_gt in Hfull. by apply IH.
Qed.

Lemma parseConfig_err data : (parseConfig data).2 = (scanLines data).2.
Proof. unfold parseConfig. by destruct (scanLines data). Qed.

(** Every token costs the input at least one byte, so the line counter never
    exceeds the length of the input, which Go's int holds. *)
Lemma scanFrom_count data pending n :
  (length (scanFrom data pending n).1 ≤ len data + (if (n =? 0)%N then 0 else 1))%nat.
Proof.
  revert pending n. induction data as [|c data IH]; intros pending n; simpl.
  - destruct (n =? 0)%N; simpl; lia.
  - destruct (Ascii.eqb c newline).
    + specialize (IH EmptyString 0%N).
      destruct (scanFrom data EmptyString 0%N) as [tokens err]. simpl in *.
      destruct (n =? 0)%N; lia.
    + destruct (MaxScanTokenSize <=? n + 1)%N; simpl; [lia|].
      specialize (IH (String c pending) (n + 1)%N).
      assert ((n + 1 =? 0)%N = false) as Hz by (apply N.eqb_neq; lia).
      rewrite Hz in IH. destruct (n =? 0)%N; lia.
Qed.

Lemma scanLines_count data : (length (scanLines data).1 ≤ len data)%nat.
Proof.
  unfold scanLines. pose proof (scanFrom_count data EmptyString 0%N) as H.
  simpl in H. lia.
Qed.

End ScannerFacts.

(* ===================================================================== *)
(** ** What the validators report *)
(* ===================================================================== *)
Module IssueFacts.
Import GoLib Linter Spec.
Import CallerFacts ParserFacts ValidatorFacts.

Ltac eqb_facts :=
  repeat match goal with
    | H : Z.eqb _ _ = true |- _ => apply Z.eqb_eq in H
    | H : Z.eqb _ _ = false |- _ => apply Z.eqb_neq in H
    end.

Ltac each_issue H :=
  repeat (apply elem_of_cons in H as [->|H]); [..|by apply elem_of_nil in H].

Lemma validateMetadata_issue cfg issue :
  cfgOk cfg → issue ∈ validateMetadata cfg [] →
  metadataMessage (Issue.Message issue) = true ∧ 1 ≤ Issue.Line issue.
Proof.
  intros [HL HM _ _ _ _]. unfold validateMetadata, report, mapGet.
  destruct (parsedConfig.Metadata cfg !! "name") as [name|] eqn:Hname;
    [apply HM in Hname|];
    (destruct (parsedConfig.Metadata cfg !! "env") as [env|] eqn:Henv;
     [apply HM in Henv|]);
    repeat case_match; simplify_eq; eqb_facts; simpl in *; intros Hin;
    each_issue Hin; simpl; (split; [done|lia]).
Qed.

Lemma validateSettings_issue cfg issue :
  cfgOk cfg → issue ∈ validateSettings cfg [] →
  Issue.Message issue ∈ settingsMessages ∧ 1 ≤ Issue.Line issue.
Proof.
  intros [_ _ _ HL HS _]. unfold validateSettings, report, mapGet.
  destruct (parsedConfig.Settings cfg !! "replicas") as [replicas|] eqn:Hr;
    [apply HS in Hr|];
    (destruct (parsedConfig.Settings cfg !! "timeout") as [timeout|] eqn:Ht;
     [apply HS in Ht|]);
    repeat case_match; simplify_eq; eqb_facts; simpl in *; intros Hin;
    each_issue Hin; simpl; (split; [unfold settingsMessages; set_solver|lia]).
Qed.

Lemma validateFeature_issue feature issue :
  entryOk feature → issue ∈ validateFeature feature [] →
  Issue.Message issue ∈ featureMessages ∧ 1 ≤ Issue.Line issue.
Proof.
  intros [Hne Hl]. unfold validateFeature, report, mapGet.
  apply mapLen_nonzero in Hne. rewrite Hne.
  repeat case_match; simplify_eq; simpl in *; intros Hin;
    each_issue Hin; simpl; (split; [unfold featureMessages; set_solver|lia]).
Qed.

Lemma validateFeatures_issue cfg issue :
  cfgOk cfg → issue ∈ validateFeatures cfg [] →
  Issue.Message issue ∈ featureMessages ∧ 1 ≤ Issue.Line issue.
Proof.
  intros [_ _ _ _ _ HF]. unfold validateFeatures.
  rewrite validateFeatures_fold. simpl.
  induction HF as [|feature rest Hf _ IH]; simpl.
  - intros Hin. by apply elem_of_nil in Hin.
  - intros Hin. apply elem_of_app in Hin as [Hin|Hin]; [|by apply IH].
    by apply (validateFeature_issue feature).
Qed.

Lemma settingsMessages_not_metadata m :
  m ∈ settingsMessages → metadataMessage m = false ∧ m ≠ emptyEntryMessage.
Proof. intros Hin. unfold settingsMessages in Hin. each_issue Hin; done. Qed.

Lemma featureMessages_not_metadata m :
  m ∈ featureMessages → metadataMessage m = false ∧ m ≠ emptyEntryMessage.
Proof. intros Hin. unfold featureMessages in Hin. each_issue Hin; done. Qed.

End IssueFacts.

(* ===================================================================== *)
(** ** The properties of the specification *)
(* ===================================================================== *)
Module LintFacts.
Import GoLib Linter Spec.
Import CallerFacts ParserFacts ValidatorFacts ScannerFacts IssueFacts.

(** *** The positive-integer test *)

(** A value that parses as an integer greater than zero passes
    isPositiveInt. *)
Lemma positiveInteger_isPositiveInt value :
  positiveInteger value = true → isPositiveInt value = true.
Proof.
  unfold positiveInteger, isPositiveInt, strEq.
  destruct (Atoi value) as [n|] eqn:Hn; [|done].
  intros Hpos. apply Z.ltb_lt in Hpos.
  repeat case_bool_decide; subst; try done.
  vm_compute in Hn. injection Hn as <-. lia.
Qed.

(** What isPositiveInt tests: the text parses as an integer and is not the
    text "0". *)
Lemma isPositiveInt_spec value :
  isPositiveInt value = true ↔ is_Some (Atoi value) ∧ value ≠ "0".
Proof.
  unfold isPositiveInt, strEq. split.
  - repeat case_bool_decide; destruct (Atoi value) as [n|]; try done.
  - intros [[n Hn] H0]. rewrite Hn.
    repeat case_bool_decide; subst; try done.
Qed.

(** C1: the positive-integer test is meant to pass exactly the texts that
    parse as an integer greater than zero, but isPositiveInt throws the
    parsed value away and only refuses the text "0": "-5" and "00" pass, and
    Scenario A (timeout: -5) gets no warning about settings.timeout. *)
Theorem isPositiveInt_accepts_nonpositive :
  Atoi "-5" = Some (-5) ∧ positiveInteger "-5" = false ∧ isPositiveInt "-5" = true
  ∧ Atoi "00" = Some 0 ∧ positiveInteger "00" = false ∧ isPositiveInt "00" = true
  ∧ (LintBytes scenarioA).2 = None
  ∧ "settings.timeout should be a positive integer" ∉ messages (LintBytes scenarioA).1.
Proof.
  repeat split; try (vm_compute; reflexivity).
  apply (bool_decide_unpack _). vm_compute. exact I.
Qed.

(** *** A valid config has no issues *)

Lemma lookup_mapLen (m : gmap string fieldInfo.t) k f :
  m !! k = Some f → (mapLen m =? 0)%nat = false.
Proof. intros Hk. apply mapLen_nonzero. intros ->. by rewrite lookup_empty in Hk. Qed.

Lemma strEq_false (a b : string) : strEq a b = false ↔ a ≠ b.
Proof. unfold strEq. apply bool_decide_eq_false. Qed.

Lemma contains_elem l value : value ∈ l → contains l value = true.
Proof.
  induction l as [|v rest IH]; simpl; intros Hin.
  - by apply elem_of_nil in Hin.
  - unfold strEq. case_bool_decide; [done|].
    apply elem_of_cons in Hin as [->|Hin]; [done|auto].
Qed.

Lemma validMetadata_no_issue cfg : validMetadata cfg → validateMetadata cfg [] = [].
Proof.
  intros [(name & Hname & Hn) (env & Henv & He)].
  unfold validateMetadata, mapGet.
  rewrite (lookup_mapLen _ _ _ Hname), Hname, Henv.
  rewrite (contains_elem _ _ He).
  assert (strEq (fieldInfo.Value env) EmptyString = false) as ->.
  { apply strEq_false. intros Heq. rewrite Heq in He.
    unfold allowedEnvironments in He.
    repeat (apply elem_of_cons in He as [He'|He]; [discriminate|]).
    by apply elem_of_nil in He. }
  apply strEq_false in Hn. by rewrite Hn.
Qed.

Lemma validSettings_no_issue cfg : validSettings cfg → validateSettings cfg [] = [].
Proof.
  intros [(replicas & Hr & Hrp) (timeout & Ht & Htp)].
  unfold validateSettings, mapGet.
  by rewrite (lookup_mapLen _ _ _ Hr), Hr, Ht, Hrp, Htp.
Qed.

Lemma validFeature_no_issue feature : validFeature feature → validateFeature feature [] = [].
Proof.
  intros [(name & Hname & Hn) (enabled & Hen & Hb)].
  unfold validateFeature, mapGet.
  rewrite (lookup_mapLen _ _ _ Hname), Hname, Hen, Hb.
  apply strEq_false in Hn. by rewrite Hn.
Qed.

Lemma valid_parsed_config_clean data :
  validMetadata (parseConfig data).1 →
  validSettings (parseConfig data).1 →
  Forall validFeature (parsedConfig.Features (parseConfig data).1) →
  (LintBytes data).1 = [].
Proof.
  intros Hm Hs Hf. rewrite LintBytes_unfold.
  destruct (parseConfig data).2; [done|]. simpl.
  rewrite (validMetadata_no_issue _ Hm), (validSettings_no_issue _ Hs). simpl.
  unfold validateFeatures. rewrite validateFeatures_fold. simpl.
  induction Hf as [|feature rest Hfeat _ IH]; simpl; [done|].
  by rewrite (validFeature_no_issue _ Hfeat).
Qed.

(** C2: a config whose parsed form has a non-empty metadata.name, a
    metadata.env among dev, staging and prod, settings.replicas and
    settings.timeout that pass the positive-integer test, and only feature
    entries with a non-empty name and a true/false enabled value, has no
    issues. *)
Theorem valid_config_no_issues data :
  validMetadata (parseConfig data).1 →
  validSettings (parseConfig data).1 →
  Forall validFeature (parsedConfig.Features (parseConfig data).1) →
  (LintBytes data).1 = [].
Proof. apply valid_parsed_config_clean. Qed.

(** Scenario B is an instance. *)
Lemma valid_config_no_issues_witness : LintBytes scenarioB = ([], None).
Proof.
  assert ((LintBytes scenarioB).2 = None) as Herr by (vm_compute; reflexivity).
  assert ((LintBytes scenarioB).1 = []) as Hnone.
  { apply (valid_config_no_issues scenarioB).
    - split; eexists; (split; [vm_compute; reflexivity|]); simpl; [done|].
      unfold allowedEnvironments. do 2 apply list_elem_of_further.
      apply list_elem_of_here.
    - split; eexists; (split; [vm_compute; reflexivity|]); vm_compute; reflexivity.
    - assert (parsedConfig.Features (parseConfig scenarioB).1 =
                [featureEntry.mk
                   (<["enabled" := fieldInfo.mk "true" 10]>
                      (<["name" := fieldInfo.mk "featureA" 9]> ∅)) 9]) as ->
        by (vm_compute; reflexivity).
      constructor; [|constructor].
      split; eexists; (split; [vm_compute; reflexivity|]); simpl; [done|].
      vm_compute; reflexivity. }
  destruct (LintBytes scenarioB) as [issues err]. simpl in *. congruence.
Defined.

(** The same with the specification's own words for the two value
    tests. *)
Lemma lowerByte_letter (c l : ascii) :
  (97 ≤ nat_of_ascii l ≤ 122)%nat → lowerByte c = l →
  c = l ∨ c = ascii_of_nat (nat_of_ascii l - 32).
Proof.
  intros Hl <-. unfold lowerByte, code in *.
  destruct ((65 <=? nat_of_ascii c)%nat && (nat_of_ascii c <=? 90)%nat) eqn:Hup;
    [|by left].
  right. apply andb_true_iff in Hup as [H1 H2].
  apply Nat.leb_le in H1, H2.
  rewrite nat_ascii_embedding by lia.
  replace (nat_of_ascii c + 32 - 32)%nat with (nat_of_ascii c) by lia.
  by rewrite ascii_nat_embedding.
Qed.

Ltac letter H :=
  apply lowerByte_letter in H as [->| ->];
  [| |split; apply Nat.leb_le; vm_compute; reflexivity].

Lemma boolToken_isBool value : boolToken value → isBool value = true.
Proof.
  intros [H|H];
    destruct value as [|c1 [|c2 [|c3 [|c4 [|c5 [|c6 rest]]]]]];
    simpl in H; try discriminate.
  - injection H as H1 H2 H3 H4.
    letter H1; letter H2; letter H3; letter H4; vm_compute; reflexivity.
  - injection H as H1 H2 H3 H4 H5.
    letter H1; letter H2; letter H3; letter H4; letter H5; vm_compute; reflexivity.
Qed.

Lemma valid_config_no_issues_spec_words data :
  hasField (parsedConfig.Metadata (parseConfig data).1) "name" (fun v => v ≠ EmptyString) →
  hasField (parsedConfig.Metadata (parseConfig data).1) "env"
    (fun v => v ∈ allowedEnvironments) →
  hasField (parsedConfig.Settings (parseConfig data).1) "replicas"
    (fun v => positiveInteger v = true) →
  hasField (parsedConfig.Settings (parseConfig data).1) "timeout"
    (fun v => positiveInteger v = true) →
  Forall (fun e => hasField (featureEntry.Fields e) "name" (fun v => v ≠ EmptyString)
                   ∧ hasField (featureEntry.Fields e) "enabled" boolToken)
    (parsedConfig.Features (parseConfig data).1) →
  (LintBytes data).1 = [].
Proof.
  intros Hn He (r & Hr & Hrp) (t & Ht & Htp) Hf.
  apply valid_parsed_config_clean.
  - by split.
  - split; eexists; (split; [done|]); by apply positiveInteger_isPositiveInt.
  - eapply Forall_impl; [exact Hf|].
    intros e [Hname (en & Hen & Hb)]. split; [done|].
    exists en. split; [done|]. by apply boolToken_isBool.
Qed.

(** *** The metadata section *)

Lemma no_header_no_metadata data :
  parsedConfig.MetadataLine (parseConfig data).1 = 0 →
  parsedConfig.Metadata (parseConfig data).1 = ∅.
Proof.
  intros Hline. destruct (parseConfig_ok data) as [_ _ Hseen _ _ _].
  destruct (decide (parsedConfig.Metadata (parseConfig data).1 = ∅)) as [|Hne];
    [done|].
  apply Hseen in Hne. lia.
Qed.

(** C3, as amended: when the input is scanned without error and the parsed
    metadata mapping is empty, in particular when the input has no metadata
    header at all, the result has exactly one metadata issue: the Error
    "missing metadata section" at metadataLine, or at line 1 when no header
    was seen; there is no issue on metadata.name or metadata.env. *)
Theorem missing_metadata_only data :
  (parseConfig data).2 = None →
  parsedConfig.Metadata (parseConfig data).1 = ∅
  ∨ parsedConfig.MetadataLine (parseConfig data).1 = 0 →
  ∃ rest,
    LintBytes data = (missingMetadata (parseConfig data).1 :: rest, None)
    ∧ Forall (fun issue => metadataMessage (Issue.Message issue) = false) rest.
Proof.
  intros Herr Hempty.
  assert (parsedConfig.Metadata (parseConfig data).1 = ∅) as Hm.
  { destruct Hempty as [|Hline]; [done|by apply no_header_no_metadata]. }
  pose proof (parseConfig_ok data) as Hok.
  exists (validateSettings (parseConfig data).1 []
            ++ validateFeatures (parseConfig data).1 []).
  split.
  - rewrite LintBytes_unfold, Herr. f_equal.
    unfold validateMetadata. apply mapLen_zero in Hm. by rewrite Hm.
  - apply Forall_forall. intros issue Hin.
    apply elem_of_app in Hin as [Hin|Hin].
    + apply validateSettings_issue in Hin as [Hin _]; [|done].
      by apply settingsMessages_not_metadata.
    + apply validateFeatures_issue in Hin as [Hin _]; [|done].
      by apply featureMessages_not_metadata.
Qed.

Lemma missing_metadata_only_witness :
  ∃ rest,
    LintBytes bareMarker
    = (Issue.mk 1 SeverityError "missing metadata section"
         "Add a 'metadata' mapping with 'name' and 'env' fields" :: rest, None)
    ∧ Forall (fun issue => metadataMessage (Issue.Message issue) = false) rest.
Proof.
  apply (missing_metadata_only bareMarker).
  - vm_compute. reflexivity.
  - right. vm_compute. reflexivity.
Defined.

(** C3, the counterexample: an input that is one line of 65536 bytes has no
    metadata section and an empty metadata mapping, but the scan fails and
    LintBytes returns the scanner's error and no issue at all. *)
Lemma missing_metadata_scan_error :
  parsedConfig.Metadata (parseConfig longLine).1 = ∅
  ∧ parsedConfig.MetadataLine (parseConfig longLine).1 = 0
  ∧ (LintBytes longLine).2 = Some ErrTooLong
  ∧ ¬ ("missing metadata section" ∈ messages (LintBytes longLine).1).
Proof.
  repeat split; try (vm_compute; reflexivity).
  apply (bool_decide_unpack _). vm_compute. exact I.
Qed.

(** *** Feature entries *)

(** C4, as amended: an empty pending feature entry is never appended to the
    features sequence, also when a closing brace closes it empty; so every
    appended entry has a field and the Warning "each feature entry should be
    a mapping" is in no lint result. *)
Theorem empty_entry_never_appended data :
  Forall (fun entry => featureEntry.Fields entry ≠ ∅)
    (parsedConfig.Features (parseConfig data).1)
  ∧ emptyEntryMessage ∉ messages (LintBytes data).1.
Proof.
  pose proof (parseConfig_ok data) as Hok. split.
  - destruct Hok as [_ _ _ _ _ Hf].
    eapply Forall_impl; [exact Hf|]. by intros entry [Hne _].
  - rewrite LintBytes_unfold.
    destruct (parseConfig data).2; simpl; [apply not_elem_of_nil|].
    unfold messages. intros Hin.
    apply list_elem_of_fmap in Hin as (issue & Hmsg & Hin).
    apply elem_of_app in Hin as [Hin|Hin]; [|apply elem_of_app in Hin as [Hin|Hin]].
    + apply validateMetadata_issue in Hin as [Hin _]; [|done].
      by rewrite <- Hmsg in Hin.
    + apply validateSettings_issue in Hin as [Hin _]; [|done].
      apply settingsMessages_not_metadata in Hin as [_ Hin]. congruence.
    + apply validateFeatures_issue in Hin as [Hin _]; [|done].
      apply featureMessages_not_metadata in Hin as [_ Hin]. congruence.
Qed.

(** C4, the counterexample: an entry opened by a lone marker on line 2 and
    closed empty by a brace on line 3 is dropped, and the result has no
    Warning for it. *)
Lemma empty_closed_entry_no_warning :
  (scanLines emptyEntry).1 = ["features:"; "  -"; "  }"]
  ∧ parsedConfig.Features (parseConfig emptyEntry).1 = []
  ∧ (LintBytes emptyEntry).2 = None
  ∧ ¬ (emptyEntryMessage ∈ messages (LintBytes emptyEntry).1).
Proof.
  repeat split; try (vm_compute; reflexivity).
  apply (bool_decide_unpack _). vm_compute. exact I.
Qed.

(** C6: the line of a feature entry is meant to be the line of its marker,
    and the loop does record it there; but when the marker stands alone the
    first key-value line finds the entry without fields and opens it again
    at its own line.  The marker of [bareMarker] is on line 2; the entry and
    its two warnings carry line 3.  A lone opening brace, as in [bareBrace],
    is skipped with the other brackets before it can open an entry, and
    the entry carries line 3 as well. *)
Theorem bare_marker_entry_line :
  (scanLines bareMarker).1
  = ["features:"; "  -"; "    name: featureA"; "    enabled: maybe"]
  ∧ (featureEntry.Line <$> parsedConfig.Features (parseConfig bareMarker).1) = [3]
  ∧ (Issue.Line <$> validateFeatures (parseConfig bareMarker).1 []) = [3]
  ∧ (scanLines bareBrace).1 !! 1%nat = Some "  {"
  ∧ (featureEntry.Line <$> parsedConfig.Features (parseConfig bareBrace).1) = [3].
Proof. repeat split; vm_compute; reflexivity. Qed.

(** *** Section headers *)

(** C5, as amended: each header line switches the section and records its
    own line number, whatever was recorded before, so that each of the three
    fields ends up with the line of the last header of its section (0 when
    there is none). *)
Theorem header_line_last_wins data :
  (∀ st line name,
     headerSeen st line = Some name →
     section (scanLine st line) = name
     ∧ sectionLine name (cfg (scanLine st line)) = lineNo st + 1)
  ∧ parsedConfig.MetadataLine (parseConfig data).1
    = lastHeaderLine "metadata" initState (scanLines data).1 0
  ∧ parsedConfig.SettingsLine (parseConfig data).1
    = lastHeaderLine "settings" initState (scanLines data).1 0
  ∧ parsedConfig.FeaturesLine (parseConfig data).1
    = lastHeaderLine "features" initState (scanLines data).1 0.
Proof.
  split.
  { intros st line name Hseen.
    destruct (scanLine_lines st line) as [_ Hline].
    rewrite Hseen in Hline. by destruct Hline as (? & ? & _). }
  unfold parseConfig. destruct (scanLines data) as [lines err]. simpl.
  repeat split.
  - apply (scan_lastHeaderLine "metadata" lines initState).
    unfold sectionNames. set_solver.
  - apply (scan_lastHeaderLine "settings" lines initState).
    unfold sectionNames. set_solver.
  - apply (scan_lastHeaderLine "features" lines initState).
    unfold sectionNames. set_solver.
Qed.

Lemma header_line_last_wins_witness :
  section (scanLine initState "metadata:") = "metadata"
  ∧ sectionLine "metadata" (cfg (scanLine initState "metadata:")) = 1
  ∧ parsedConfig.MetadataLine (parseConfig twoHeaders).1
    = lastHeaderLine "metadata" initState (scanLines twoHeaders).1 0.
Proof.
  destruct (header_line_last_wins twoHeaders) as (Hstep & Hmeta & _).
  destruct (Hstep initState "metadata:" "metadata") as [Hsec Hline].
  { vm_compute. reflexivity. }
  split; [exact Hsec|]. split; [exact Hline|exact Hmeta].
Defined.

(** C5, the counterexample: with the metadata header on lines 1 and 3, the
    recorded line is 3 and not 1. *)
Lemma first_header_line_overwritten :
  (scanLines twoHeaders).1
  = ["metadata:"; "  name: awesome"; "metadata:"; "  env: prod"]
  ∧ headerSeen initState "metadata:" = Some "metadata"
  ∧ parsedConfig.MetadataLine (parseConfig twoHeaders).1 = 3
  ∧ parsedConfig.MetadataLine (parseConfig twoHeaders).1 ≠ 1.
Proof. repeat split; try (vm_compute; reflexivity). vm_compute. discriminate. Qed.

(** *** Errors *)

(** C9, the counterexample: an input that is one line of 65536 bytes is in
    memory, and LintBytes returns the scanner's error for it. *)
Lemma long_line_is_an_error : LintBytes longLine = ([], Some ErrTooLong).
Proof. vm_compute. reflexivity. Qed.

(** C9, as amended: LintBytes returns issues and no error for every input
    whose lines are all shorter than 65536 bytes, whatever they contain; an
    input with a longer line makes the scanner give up, and LintBytes
    returns that error and no issues. *)
Theorem LintBytes_error_only_long_line data :
  (Forall (fun k => (k < MaxScanTokenSize)%N) (lineLengths data 0) →
   ∃ issues, LintBytes data = (issues, None))
  ∧ (Exists (fun k => (MaxScanTokenSize ≤ k)%N) (lineLengths data 0) →
     LintBytes data = ([], Some ErrTooLong)).
Proof.
  split; intros Hlines; rewrite LintBytes_unfold, parseConfig_err.
  - unfold scanLines. rewrite (scanFrom_short _ _ _ Hlines). eauto.
  - assert (0 < MaxScanTokenSize)%N as Hroom by done.
    unfold scanLines. by rewrite (scanFrom_long _ _ _ Hroom Hlines).
Qed.

Lemma LintBytes_error_only_long_line_witness :
  (∃ issues, LintBytes scenarioA = (issues, None))
  ∧ LintBytes longLine = ([], Some ErrTooLong).
Proof.
  split.
  - apply (proj1 (LintBytes_error_only_long_line scenarioA)).
    apply (bool_decide_unpack _). vm_compute. exact I.
  - assert (lineLengths longLine 0 = [MaxScanTokenSize]) as Hlen
      by (vm_compute; reflexivity).
    apply (proj2 (LintBytes_error_only_long_line longLine)).
    rewrite Hlen. apply Exists_cons_hd. apply N.le_refl.
Defined.

(** *** Issue lines *)

(** The line counter is the number of lines read, and never more than the
    number of bytes of the input. *)
Lemma lineNo_count lines st :
  lineNo (fold_left scanLine lines st) = lineNo st + Z.of_nat (length lines).
Proof.
  revert st. induction lines as [|line rest IH]; intros st; simpl; [lia|].
  rewrite IH. destruct (scanLine_lines st line) as [-> _]. lia.
Qed.

(** The line counter never exceeds the number of bytes of the input, so
    that it stays within Go's int. *)
Lemma lineNo_bounded data :
  lineNo (fold_left scanLine (scanLines data).1 initState) ≤ Z.of_nat (len data).
Proof.
  rewrite lineNo_count. simpl. pose proof (scanLines_count data). lia.
Qed.

(** C10: every issue LintBytes produces has a line of at least 1: the line
    of the field or of the section header it is about, or line 1 when the
    section was never seen. *)
Theorem issue_lines_positive data :
  Forall (fun issue => 1 ≤ Issue.Line issue) (LintBytes data).1.
Proof.
  pose proof (parseConfig_ok data) as Hok.
  rewrite LintBytes_unfold.
  destruct (parseConfig data).2; simpl; [constructor|].
  apply Forall_forall. intros issue Hin.
  apply elem_of_app in Hin as [Hin|Hin]; [|apply elem_of_app in Hin as [Hin|Hin]].
  - by apply validateMetadata_issue in Hin as [_ Hin].
  - by apply validateSettings_issue in Hin as [_ Hin].
  - by apply validateFeatures_issue in Hin as [_ Hin].
Qed.

End LintFacts.

(* ===================================================================== *)
(** ** Severities and what is fatal *)
(* ===================================================================== *)
Module SeverityFacts.
Import GoLib Linter Callers Spec Notions.
Import CallerFacts ParserFacts ValidatorFacts IssueFacts LintFacts.

Lemma validateMetadata_severity cfg issue :
  issue ∈ validateMetadata cfg [] → knownSeverity issue.
Proof.
  unfold validateMetadata, report, mapGet, knownSeverity.
  repeat case_match; simplify_eq; simpl; intros Hin; each_issue Hin; simpl; auto.
Qed.

Lemma validateSettings_severity cfg issue :
  issue ∈ validateSettings cfg [] → knownSeverity issue.
Proof.
  unfold validateSettings, report, mapGet, knownSeverity.
  repeat case_match; simplify_eq; simpl; intros Hin; each_issue Hin; simpl; auto.
Qed.

Lemma validateFeature_warns feature issue :
  issue ∈ validateFeature feature [] → Issue.Severity issue = SeverityWarning.
Proof.
  unfold validateFeature, report, mapGet.
  repeat case_match; simplify_eq; simpl; intros Hin; each_issue Hin; done.
Qed.

Lemma validateFeatures_warns cfg issue :
  issue ∈ validateFeatures cfg [] → Issue.Severity issue = SeverityWarning.
Proof.
  unfold validateFeatures. rewrite validateFeatures_fold. simpl.
  induction (parsedConfig.Features cfg) as [|feature rest IH]; simpl.
  - intros Hin. by apply elem_of_nil in Hin.
  - intros Hin. apply elem_of_app in Hin as [Hin|Hin]; [|by apply IH].
    by apply (validateFeature_warns feature).
Qed.

Lemma known_severities data : Forall knownSeverity (LintBytes data).1.
Proof.
  rewrite LintBytes_unfold. destruct (parseConfig data).2; simpl; [constructor|].
  apply Forall_forall. intros issue Hin.
  apply elem_of_app in Hin as [Hin|Hin]; [|apply elem_of_app in Hin as [Hin|Hin]].
  - by eapply validateMetadata_severity.
  - by eapply validateSettings_severity.
  - right. by eapply validateFeatures_warns.
Qed.

(** Every issue LintBytes returns has severity error or warn, and the
    issues of the features validator are all warnings. *)
Theorem issue_severities data :
  Forall knownSeverity (LintBytes data).1
  ∧ Forall (fun issue => Issue.Severity issue = SeverityWarning)
      (validateFeatures (parseConfig data).1 []).
Proof.
  split; [apply known_severities|].
  apply Forall_forall. intros issue. apply validateFeatures_warns.
Qed.

Lemma lintOneFatal_exists strict issues :
  lintOneFatal strict issues = existsb (escalates strict) issues.
Proof.
  unfold lintOneFatal. rewrite lintOne_loop. by destruct issues.
Qed.

Lemma handleLintFatal_exists strict issues :
  handleLintFatal strict issues = existsb (escalates strict) issues.
Proof. apply handleLint_loop. Qed.

Lemma existsb_false_iff {A} (f : A → bool) l :
  existsb f l = false ↔ Forall (fun x => f x = false) l.
Proof.
  induction l as [|x l IH]; simpl.
  - split; [constructor|done].
  - rewrite orb_false_iff, IH. split.
    + intros [? ?]. by constructor.
    + intros H. by inversion H.
Qed.

(** Strict mode only adds to what is fatal, for both callers: what is fatal
    without it is fatal with it. *)
Theorem strict_only_adds issues :
  (lintOneFatal false issues = true → lintOneFatal true issues = true)
  ∧ (handleLintFatal false issues = true → handleLintFatal true issues = true).
Proof.
  rewrite !lintOneFatal_exists, !handleLintFatal_exists.
  assert (existsb (escalates false) issues = true →
          existsb (escalates true) issues = true) as Hmono.
  { rewrite !existsb_exists. intros (issue & Hin & Hesc). exists issue.
    split; [done|]. apply escalates_spec in Hesc. apply escalates_spec.
    destruct Hesc as [?|[? ?]]; [by left|done]. }
  by split.
Qed.

(** In strict mode a lint result is fatal as soon as it has any issue at
    all; without strict mode it is fatal exactly when it has an error. *)
Theorem strict_any_issue_fatal data :
  (handleLintFatal true (LintBytes data).1 = true ↔ (LintBytes data).1 ≠ [])
  ∧ (handleLintFatal false (LintBytes data).1 = true ↔
     ∃ issue, issue ∈ (LintBytes data).1 ∧ Issue.Severity issue = SeverityError).
Proof.
  rewrite !handleLintFatal_exists. pose proof (known_severities data) as Hknown.
  split.
  - destruct (LintBytes data).1 as [|issue rest]; simpl; [done|].
    split; [done|]. intros _.
    apply Forall_cons in Hknown as [Hsev _].
    assert (escalates true issue = true) as ->; [|done].
    apply escalates_spec. destruct Hsev; auto.
  - rewrite existsb_escalates. unfold fatal. split.
    + intros [H|[? _]]; done.
    + by left.
Qed.

Lemma LintBytes_err data : (LintBytes data).2 = (parseConfig data).2.
Proof. rewrite LintBytes_unfold. by destruct (parseConfig data).2. Qed.

(** What the callers do with an input that is scanned without error. *)
Lemma lintOne_scanned strict data :
  (parseConfig data).2 = None →
  lintOne strict (Some data) = (lintOneFatal strict (LintBytes data).1, None).
Proof.
  intros Herr. rewrite <- LintBytes_err in Herr. unfold lintOne, LintConfig.
  destruct (LintBytes data) as [issues err]. simpl in *. by subst.
Qed.

Lemma main_single strict data fatal :
  lintOne strict (Some data) = (fatal, None) →
  Cli.main strict [Some data] = if fatal then 2 else 0.
Proof.
  intros Hone. unfold Cli.main, Cli.mainLoop. simpl. by rewrite Hone.
Qed.

Lemma handleLint_scanned strict suggest data :
  (parseConfig data).2 = None → TrimSpace data ≠ EmptyString →
  handleLint (Some (mkRequest data strict suggest))
  = StatusOK (LintBytes data).1 strict (handleLintFatal strict (LintBytes data).1).
Proof.
  intros Herr Hblank. rewrite <- LintBytes_err in Herr.
  unfold handleLint, strEq. simpl. rewrite bool_decide_eq_false_2 by done.
  destruct (LintBytes data) as [issues err]. simpl in *. by subst.
Qed.

(** Problems in the features section never set the fatal flag without
    strict mode: with valid parsed metadata and settings, the loops of both
    callers find nothing fatal in the issues; so when the input is also
    scanned without error, lintOne returns fatal = false and no error, main
    exits 0 for that file, and handleLint answers 200 with fatal = false to
    a config that is not blank. *)
Theorem features_never_fatal data :
  validMetadata (parseConfig data).1 →
  validSettings (parseConfig data).1 →
  lintOneFatal false (LintBytes data).1 = false
  ∧ handleLintFatal false (LintBytes data).1 = false
  ∧ ((parseConfig data).2 = None →
     lintOne false (Some data) = (false, None)
     ∧ Cli.main false [Some data] = 0
     ∧ ∀ suggest, TrimSpace data ≠ EmptyString →
         handleLint (Some (mkRequest data false suggest))
         = StatusOK (LintBytes data).1 false false).
Proof.
  intros Hm Hs.
  assert (existsb (escalates false) (LintBytes data).1 = false) as Hnone.
  { apply existsb_false_iff. rewrite LintBytes_unfold.
    destruct (parseConfig data).2; simpl; [constructor|].
    rewrite (validMetadata_no_issue _ Hm), (validSettings_no_issue _ Hs). simpl.
    apply Forall_forall. intros issue Hin.
    apply validateFeatures_warns in Hin.
    unfold escalates. by rewrite Hin. }
  assert (lintOneFatal false (LintBytes data).1 = false) as Hone
    by by rewrite lintOneFatal_exists.
  assert (handleLintFatal false (LintBytes data).1 = false) as Hhandle
    by by rewrite handleLintFatal_exists.
  split; [done|]. split; [done|]. intros Herr.
  assert (lintOne false (Some data) = (false, None)) as Hrun
    by by rewrite (lintOne_scanned false data Herr), Hone.
  split; [done|]. split; [by rewrite (main_single false data false Hrun)|].
  intros fix_ Hblank.
  by rewrite (handleLint_scanned false fix_ data Herr Hblank), Hhandle.
Qed.

Lemma features_never_fatal_witness :
  messages (LintBytes badFeature).1
  = ["feature entry missing name"; "feature enabled should be true or false"]
  ∧ lintOneFatal false (LintBytes badFeature).1 = false
  ∧ handleLintFatal false (LintBytes badFeature).1 = false
  ∧ lintOne false (Some badFeature) = (false, None)
  ∧ Cli.main false [Some badFeature] = 0.
Proof.
  split; [vm_compute; reflexivity|].
  destruct (features_never_fatal badFeature) as (Hone & Hhandle & Hcallers).
  - split; eexists; (split; [vm_compute; reflexivity|]); simpl; [done|].
    unfold allowedEnvironments. do 2 apply list_elem_of_further.
    apply list_elem_of_here.
  - split; eexists; (split; [vm_compute; reflexivity|]); vm_compute; reflexivity.
  - destruct Hcallers as (Hrun & Hmain & _); [vm_compute; reflexivity|].
    by repeat split.
Defined.

(** *** cmd/cli: the exit status *)

Lemma failed_spec strict file : failed strict file = true ↔ fileFails strict file.
Proof.
  unfold failed, lintOne, LintConfig, fileFails.
  destruct file as [data|]; simpl; [|done].
  destruct (LintBytes data) as [issues [e|]]; simpl.
  - split; [by left|done].
  - rewrite lintOneFatal_exists, existsb_escalates. split; [by right|].
    by intros [?|?].
Qed.

Lemma mainLoop_exit strict files exitCode :
  Cli.mainLoop strict files exitCode
  = if existsb (failed strict) files then 2 else exitCode.
Proof.
  unfold Cli.mainLoop. revert exitCode.
  induction files as [|file rest IH]; intros exitCode; simpl; [done|].
  rewrite IH. unfold failed.
  destruct (lintOne strict file) as [fatal [e|]]; simpl.
  - by destruct (existsb _ rest).
  - destruct fatal; simpl; [by destruct (existsb _ rest)|done].
Qed.

(** The command exits with 1 when it is given no file, with 2 when some
    file cannot be read, cannot be scanned or has fatal issues, and with 0
    otherwise. *)
Theorem main_exit_status strict files :
  match files with
  | [] => Cli.main strict files = 1
  | _ =>
      (Exists (fileFails strict) files ∧ Cli.main strict files = 2)
      ∨ (Forall (fun file => ¬ fileFails strict file) files
         ∧ Cli.main strict files = 0)
  end.
Proof.
  destruct files as [|file rest]; [done|].
  unfold Cli.main. simpl length. simpl Nat.eqb. cbv iota.
  rewrite mainLoop_exit.
  destruct (existsb (failed strict) (file :: rest)) eqn:Hany.
  - left. split; [|done].
    apply existsb_exists in Hany as (f & Hin & Hf).
    apply Exists_exists. exists f. split; [by apply list_elem_of_In|].
    by apply failed_spec.
  - right. split; [|done].
    apply existsb_false_iff in Hany.
    eapply Forall_impl; [exact Hany|]. intros f Hf Hfails.
    apply failed_spec in Hfails. congruence.
Qed.

End SeverityFacts.

(* ===================================================================== *)
(** ** looksLikeJSON *)
(* ===================================================================== *)
Module JsonFacts.
Import GoLib Linter Spec Notions.

Lemma app_cons c a b : String c a +:+ b = String c (a +:+ b).
Proof. reflexivity. Qed.

Lemma app_empty b : EmptyString +:+ b = b.
Proof. reflexivity. Qed.

Lemma blank_byte c :
  Ascii.eqb c " " || Ascii.eqb c newline || Ascii.eqb c carriageReturn
  || Ascii.eqb c (ascii_of_nat 9) = true
  ↔ c = " "%char ∨ c = newline ∨ c = carriageReturn ∨ c = ascii_of_nat 9.
Proof. rewrite !orb_true_iff, !Ascii.eqb_eq. tauto. Qed.

(** looksLikeJSON holds exactly of the inputs whose first byte other than
    space, line feed, carriage return and tab is an opening brace or
    bracket; the empty input and an all-blank input are not JSON. *)
Theorem looksLikeJSON_first_byte data :
  looksLikeJSON data = true ↔
  ∃ blanks c rest,
    data = blanks +:+ String c rest ∧ allBlank blanks
    ∧ (c = "{"%char ∨ c = "["%char).
Proof.
  split.
  - induction data as [|b data IH]; simpl; [done|].
    destruct (_ || _) eqn:Hb.
    + intros Hjson. destruct (IH Hjson) as (blanks & c & rest & -> & Hbl & Hc).
      exists (String b blanks), c, rest. rewrite app_cons.
      split; [done|]. split; [|done]. simpl. split; [|done].
      by apply blank_byte.
    + intros Hc. exists EmptyString, b, data. rewrite app_empty.
      split; [done|]. split; [done|].
      by rewrite orb_true_iff, !Ascii.eqb_eq in Hc.
  - intros (blanks & c & rest & -> & Hbl & Hc).
    induction blanks as [|b blanks IH]; simpl in *.
    + rewrite ?app_empty. simpl. by destruct Hc as [-> | ->].
    + destruct Hbl as [Hb Hbl]. rewrite ?app_cons. simpl.
      apply blank_byte in Hb. rewrite Hb. by apply IH.
Qed.

End JsonFacts.

(* ===================================================================== *)
(** ** cmd/server: keys and authentication *)
(* ===================================================================== *)
Module ServerFacts.
Import GoLib Linter Spec Notions Http.
Import CallerFacts ScannerFacts ValidatorFacts.

Lemma keyLoop_elem parts keys k :
  k ∈ keyLoop parts keys ↔
  k ∈ keys ∨ (k ≠ EmptyString ∧ ∃ part, part ∈ parts ∧ TrimSpace part = k).
Proof.
  unfold keyLoop. revert keys.
  induction parts as [|part rest IH]; intros keys; simpl.
  - split; [by left|]. intros [?|(_ & p & Hp & _)]; [done|].
    by apply elem_of_nil in Hp.
  - rewrite IH. unfold strEq. case_bool_decide as Hblank.
    + split.
      * intros [?|(Hk & p & Hp & Ht)]; [by left|].
        right. split; [done|]. exists p. split; [by right|done].
      * intros [?|(Hk & p & Hp & Ht)]; [by left|].
        apply elem_of_cons in Hp as [->|Hp]; [congruence|].
        right. split; [done|]. by exists p.
    + rewrite elem_of_union, elem_of_singleton. split.
      * intros [[->|?]|(Hk & p & Hp & Ht)].
        -- right. split; [done|]. exists part. split; [by left|done].
        -- by left.
        -- right. split; [done|]. exists p. split; [by right|done].
      * intros [?|(Hk & p & Hp & Ht)]; [left; by right|].
        apply elem_of_cons in Hp as [->|Hp]; [left; left; done|].
        right. split; [done|]. by exists p.
Qed.

Lemma collectKeys_elem raw k :
  k ∈ Server.collectKeys raw ↔
  k ≠ EmptyString ∧ ∃ part, part ∈ Split raw "," ∧ TrimSpace part = k.
Proof.
  unfold Server.collectKeys. rewrite (keyLoop_elem (Split raw ",") ∅ k).
  split; [|by right]. by intros [?|?].
Qed.

Lemma no_keys (keys : gset string) : (size keys =? 0)%nat = true ↔ keys = ∅.
Proof. rewrite Nat.eqb_eq, size_empty_iff. by unfold_leibniz. Qed.

Lemma some_keys (keys : gset string) : (size keys =? 0)%nat = false ↔ keys ≠ ∅.
Proof. rewrite <- no_keys. by destruct (size keys =? 0)%nat. Qed.

Lemma loadConfig_blank getenv :
  EmptyString ∉ Server.APIKeys (Server.loadConfig getenv).
Proof.
  unfold Server.loadConfig. simpl. intros Hin.
  by apply collectKeys_elem in Hin as [? _].
Qed.

(** loadConfig always yields a port and a static directory, and its keys
    are exactly the non-blank comma-separated parts of
    CONFIG_LINTER_API_KEY, trimmed; the empty key is never among them. *)
Theorem loadConfig_keys getenv :
  Server.Port (Server.loadConfig getenv) ≠ EmptyString
  ∧ Server.StaticDir (Server.loadConfig getenv) ≠ EmptyString
  ∧ (EmptyString ∉ Server.APIKeys (Server.loadConfig getenv))
  ∧ (∀ k, k ∈ Server.APIKeys (Server.loadConfig getenv) ↔
          k ≠ EmptyString
          ∧ (∃ part, part ∈ Split (getenv "CONFIG_LINTER_API_KEY") ","
                     ∧ TrimSpace part = k)).
Proof.
  split; [|split; [|split]].
  - unfold Server.loadConfig, strEq. simpl. repeat case_bool_decide; done.
  - unfold Server.loadConfig, strEq. simpl. repeat case_bool_decide; done.
  - apply loadConfig_blank.
  - intros k. unfold Server.loadConfig. simpl. apply collectKeys_elem.
Qed.

Lemma handleLint_not_unauthorized r : (Server.handleLint r).1 ≠ StatusUnauthorized.
Proof. unfold Server.handleLint. by destruct (Callers.handleLint (Body r)). Qed.

(** The lint endpoint behind its key check, with the keys loadConfig reads:
    a request is refused with 401 exactly when some key is configured and
    the request presents none of them; so with a key configured a request
    without credentials is always refused, and with no key configured every
    request reaches handleLint. *)
Theorem secured_refuses getenv r :
  let cfg := Server.loadConfig getenv in
  ((Server.secured cfg r).1 = StatusUnauthorized ↔
   Server.APIKeys cfg ≠ ∅ ∧ Server.presentedKey r ∉ Server.APIKeys cfg)
  ∧ (Server.APIKeys cfg ≠ ∅ → Server.presentedKey r = EmptyString →
     (Server.secured cfg r).1 = StatusUnauthorized)
  ∧ (Server.APIKeys cfg = ∅ → Server.secured cfg r = Server.handleLint r).
Proof.
  intros cfg.
  assert ((Server.secured cfg r).1 = StatusUnauthorized ↔
          Server.APIKeys cfg ≠ ∅ ∧ Server.presentedKey r ∉ Server.APIKeys cfg) as Hiff.
  { unfold Server.secured, Server.withAPIKeyAuth.
    destruct (size (Server.APIKeys cfg) =? 0)%nat eqn:Hsize.
    - apply no_keys in Hsize. split; [|by intros [? _]].
      intros H. by apply handleLint_not_unauthorized in H.
    - apply some_keys in Hsize. case_bool_decide as Hkey; simpl.
      + split; [|by intros [_ ?]].
        intros H. by apply handleLint_not_unauthorized in H.
      + done. }
  split; [exact Hiff|]. split.
  - intros Hkeys Hnone. apply Hiff. split; [done|]. rewrite Hnone.
    apply (loadConfig_blank getenv).
  - intros Hkeys. unfold Server.secured, Server.withAPIKeyAuth.
    apply no_keys in Hkeys. by rewrite Hkeys.
Qed.

Lemma secured_refuses_witness :
  (Server.secured (Server.loadConfig (keysOf "alpha, ,beta")) bareRequest).1
  = StatusUnauthorized
  ∧ Server.secured (Server.loadConfig (keysOf " , ")) bareRequest
    = Server.handleLint bareRequest.
Proof.
  split.
  - apply (secured_refuses (keysOf "alpha, ,beta") bareRequest); [|done].
    intros Hnone.
    assert ("alpha" ∈ Server.APIKeys (Server.loadConfig (keysOf "alpha, ,beta")))
      as Hin by (apply (bool_decide_unpack _); vm_compute; exact I).
    rewrite Hnone in Hin. by apply not_elem_of_empty in Hin.
  - apply (secured_refuses (keysOf " , ") bareRequest).
    vm_compute. reflexivity.
Defined.

(** *** The second server *)

Lemma loadAPIKeys_elem getenv k :
  k ∈ ServerAlt.loadAPIKeys getenv ↔
  k ≠ EmptyString
  ∧ (∃ part, part ∈ Split (getenv "CONFIG_LINTER_API_KEY") "," ∧ TrimSpace part = k).
Proof.
  unfold ServerAlt.loadAPIKeys.
  rewrite (keyLoop_elem (Split (getenv "CONFIG_LINTER_API_KEY") ",") ∅ k).
  split; [|by right]. by intros [?|?].
Qed.

(** The lint route of the second server fails closed: it answers 200 only
    to a POST that presents a non-empty key among the configured ones
    and carries a config that is not blank; with no key configured it
    answers 200 to nothing.  A preflight (OPTIONS) is answered 204 before
    any key is looked at. *)
Theorem lintRoute_fails_closed getenv r :
  ((ServerAlt.lintRoute getenv r).1 = StatusOK →
   Method r = "POST"
   ∧ ServerAlt.presentedKey r ≠ EmptyString
   ∧ ServerAlt.presentedKey r ∈ ServerAlt.loadAPIKeys getenv
   ∧ ∃ req, Body r = Some req ∧ TrimSpace (Callers.Config req) ≠ EmptyString)
  ∧ (ServerAlt.loadAPIKeys getenv = ∅ → (ServerAlt.lintRoute getenv r).1 ≠ StatusOK)
  ∧ (Method r = "OPTIONS" → ServerAlt.lintRoute getenv r = (StatusNoContent, NoBody)).
Proof.
  assert ((ServerAlt.lintRoute getenv r).1 = StatusOK →
          Method r = "POST"
          ∧ ServerAlt.presentedKey r ≠ EmptyString
          ∧ ServerAlt.presentedKey r ∈ ServerAlt.loadAPIKeys getenv
          ∧ ∃ req, Body r = Some req
                   ∧ TrimSpace (Callers.Config req) ≠ EmptyString) as Hok.
  { unfold ServerAlt.lintRoute, ServerAlt.withCORS, ServerAlt.withAPIKeyAuth,
      ServerAlt.lintHandler, strEq.
    case_bool_decide as Hopt; [done|].
    destruct (size _ =? 0)%nat; [done|].
    case_bool_decide as Hkey; [|done].
    case_bool_decide as Hpost; simpl; [|done].
    destruct (Body r) as [req|]; [|done].
    case_bool_decide as Hblank; [done|].
    intros _. split; [done|]. split.
    - intros Hempty. rewrite Hempty in Hkey.
      by apply loadAPIKeys_elem in Hkey as [? _].
    - split; [done|]. by exists req. }
  split; [exact Hok|]. split.
  - intros Hnone Hstatus. destruct (Hok Hstatus) as (_ & _ & Hin & _).
    rewrite Hnone in Hin. by apply not_elem_of_empty in Hin.
  - intros Hopt. unfold ServerAlt.lintRoute, ServerAlt.withCORS, strEq.
    by rewrite bool_decide_eq_true_2.
Qed.

Lemma lintRoute_fails_closed_witness :
  (ServerAlt.lintRoute (keysOf EmptyString) bareRequest).1 ≠ StatusOK
  ∧ ServerAlt.lintRoute (keysOf "alpha")
      (Http.mkRequest "OPTIONS" EmptyString EmptyString None)
    = (StatusNoContent, NoBody).
Proof.
  split.
  - apply (lintRoute_fails_closed (keysOf EmptyString) bareRequest).
    vm_compute. reflexivity.
  - by apply (lintRoute_fails_closed (keysOf "alpha")).
Defined.

(** *** handleLint *)

(** handleLint answers 400 to a body that is no JSON and to a blank config
    without consulting the linter, 500 to a config with a line of 65536
    bytes or more, and otherwise 200 with the issues of LintBytes and the
    fatal flag of the policy. *)
Theorem handleLint_responses req :
  Callers.handleLint None = Callers.StatusBadRequest "Invalid JSON body"
  ∧ (TrimSpace (Callers.Config req) = EmptyString →
     Callers.handleLint (Some req)
     = Callers.StatusBadRequest "Config content cannot be empty")
  ∧ (TrimSpace (Callers.Config req) ≠ EmptyString →
     Exists (fun k => (MaxScanTokenSize ≤ k)%N) (lineLengths (Callers.Config req) 0) →
     Callers.handleLint (Some req)
     = Callers.StatusInternalServerError "Internal linter error")
  ∧ (TrimSpace (Callers.Config req) ≠ EmptyString →
     Forall (fun k => (k < MaxScanTokenSize)%N) (lineLengths (Callers.Config req) 0) →
     ∃ fatal,
       Callers.handleLint (Some req)
       = Callers.StatusOK (LintBytes (Callers.Config req)).1 (Callers.Strict req) fatal
       ∧ (fatal = true ↔
          Spec.fatal (Callers.Strict req) (LintBytes (Callers.Config req)).1)).
Proof.
  split; [done|]. unfold Callers.handleLint, strEq.
  split; [|split].
  - intros Hblank. by rewrite bool_decide_eq_true_2.
  - intros Hblank Hlong. rewrite bool_decide_eq_false_2 by done.
    rewrite LintBytes_unfold, parseConfig_err. unfold scanLines.
    assert (0 < MaxScanTokenSize)%N as Hroom by done.
    by rewrite (scanFrom_long _ _ _ Hroom Hlong).
  - intros Hblank Hshort. rewrite bool_decide_eq_false_2 by done.
    assert ((LintBytes (Callers.Config req)).2 = None) as Herr.
    { rewrite LintBytes_unfold, parseConfig_err. unfold scanLines.
      by rewrite (scanFrom_short _ _ _ Hshort). }
    destruct (LintBytes (Callers.Config req)) as [issues err]. simpl in *.
    subst err. eexists. split; [done|].
    unfold Callers.handleLintFatal. rewrite handleLint_loop.
    apply existsb_escalates.
Qed.

Lemma handleLint_responses_witness :
  Callers.handleLint (Some (Callers.mkRequest "   " true false))
  = Callers.StatusBadRequest "Config content cannot be empty"
  ∧ ∃ fatal,
      Callers.handleLint (Some (Callers.mkRequest scenarioA true false))
      = Callers.StatusOK (LintBytes scenarioA).1 true fatal
      ∧ (fatal = true ↔ Spec.fatal true (LintBytes scenarioA).1).
Proof.
  split.
  - apply (handleLint_responses (Callers.mkRequest "   " true false)).
    vm_compute. reflexivity.
  - apply (handleLint_responses (Callers.mkRequest scenarioA true false)).
    + simpl. intros Hblank. by vm_compute in Hblank.
    + simpl. apply (bool_decide_unpack _). vm_compute. exact I.
Defined.

End ServerFacts.

(* ===================================================================== *)
(** ** More on the scanning loop *)
(* ===================================================================== *)
Module ScanFacts.
Import GoLib Linter Spec Notions.
Import CallerFacts ParserFacts ValidatorFacts ScannerFacts IssueFacts LintFacts.

(** *** Blank lines and comments *)

Lemma scanLine_skips st line : blankOrComment line → scanLine st line = nextLine st.
Proof.
  intros Hskip. unfold scanLine, beforeKey, structural.
  assert (strEq (TrimSpace line) EmptyString || HasPrefix (TrimSpace line) "#" = true)
    as ->; [|done].
  apply orb_true_iff. destruct Hskip as [Hblank|Hcomment]; [left|by right].
  by apply strEq_true.
Qed.

Lemma scan_skips lines st :
  Forall blankOrComment lines →
  fold_left scanLine lines st
  = mkState (cfg st) (lineNo st + Z.of_nat (length lines)) (section st)
      (currentFeature st).
Proof.
  revert st. induction lines as [|line rest IH]; intros st Hall; simpl.
  - destruct st. simpl. f_equal. lia.
  - apply Forall_cons in Hall as [Hline Hrest].
    rewrite (scanLine_skips st line Hline), (IH _ Hrest). simpl. f_equal. lia.
Qed.

(** An input that is scanned without error and has blank lines and comments
    only (the empty input among them) has exactly two issues, both errors at
    line 1: the metadata section and the settings section are missing. *)
Theorem comments_only_input data :
  (scanLines data).2 = None →
  Forall blankOrComment (scanLines data).1 →
  LintBytes data = (missingSections, None).
Proof.
  intros Herr Hall. rewrite LintBytes_unfold, parseConfig_err, Herr.
  unfold parseConfig. destruct (scanLines data) as [lines err]. simpl in *.
  by rewrite (scan_skips lines initState Hall).
Qed.

Lemma comments_only_input_witness :
  (scanLines commentsOnly).1 = ["# nothing here"; EmptyString; "   # yet"]
  ∧ LintBytes commentsOnly = (missingSections, None)
  ∧ LintBytes EmptyString = (missingSections, None).
Proof.
  split; [vm_compute; reflexivity|]. split.
  - apply (comments_only_input commentsOnly); [vm_compute; reflexivity|].
    assert ((scanLines commentsOnly).1 = ["# nothing here"; EmptyString; "   # yet"])
      as -> by (vm_compute; reflexivity).
    repeat constructor; (left + right); vm_compute; reflexivity.
  - apply (comments_only_input EmptyString); [reflexivity|]. constructor.
Defined.

(** *** Recorded lines stay within the input *)

Lemma cfgUpTo_mono n n' c : n ≤ n' → cfgUpTo n c → cfgUpTo n' c.
Proof.
  intros Hle [H1 H2 H3 H4 H5 H6 H7 H8]. split; try done; try lia.
  - intros k f Hk. specialize (H2 k f Hk). lia.
  - intros k f Hk. specialize (H4 k f Hk). lia.
  - eapply Forall_impl; [exact H7|]. simpl. intros e He. lia.
Qed.

Lemma nextLine_upTo st : stateUpTo st → 0 ≤ lineNo st → upToBody (nextLine st).
Proof.
  intros [Hc Hs Hf Hcur] Hn. split; [split|]; simpl; auto; try lia.
  - eapply cfgUpTo_mono; [|exact Hc]. lia.
  - intros Hne. destruct (Hcur Hne). split; [lia|done].
Qed.

Lemma appendFeature_upTo n c f :
  cfgUpTo n c → featureEntry.Line f ≤ n → 1 ≤ parsedConfig.FeaturesLine c →
  cfgUpTo n (appendFeature c f).
Proof.
  intros [H1 H2 H3 H4 H5 H6 H7 H8] Hf Hseen. split; simpl; try done.
  apply Forall_app. split; [done|]. by constructor.
Qed.

Lemma flushPending_upTo st : upToBody st → upToBody (flushPending st).
Proof.
  intros [[Hc Hs Hf Hcur] Hl]. unfold flushPending.
  destruct (pendingFields st) eqn:Hp; [|by split; [split|]].
  apply pendingFields_true in Hp. destruct (Hcur Hp) as [Hline Hseen].
  split; [split|]; simpl; auto.
  by apply appendFeature_upTo.
Qed.

Lemma closePending_upTo st : upToBody st → upToBody (closePending st).
Proof.
  intros [[Hc Hs Hf Hcur] Hl]. unfold closePending.
  destruct (pendingFields st) eqn:Hp; [|by split; [split|]].
  apply pendingFields_true in Hp. destruct (Hcur Hp) as [Hline Hseen].
  split; [split|]; simpl; auto.
  - by apply appendFeature_upTo.
  - intros Hne. by destruct Hne.
Qed.

Lemma beginEntry_upTo marker st clean :
  upToBody st → flowUpTo (beginEntry marker st clean).
Proof.
  intros Hst. unfold beginEntry.
  destruct (HasPrefix clean marker); [|done].
  assert (upToBody (withFeature (flushPending st)
                      (featureEntry.mk ∅ (lineNo (flushPending st))))) as Hok.
  { destruct (flushPending_upTo st Hst) as [[Hc Hs Hf Hcur] Hl].
    split; [split|]; simpl; auto. intros Hne. by destruct Hne. }
  by destruct (strEq _ _).
Qed.

Lemma featureLine_upTo st clean : upToBody st → flowUpTo (featureLine st clean).
Proof.
  intros Hst. unfold featureLine.
  destruct (strEq (section st) "features"); [|done].
  apply flowAll_bind; [by apply beginEntry_upTo|].
  intros st1 clean1 Hst1.
  apply flowAll_bind; [by apply beginEntry_upTo|].
  intros st2 clean2 Hst2.
  destruct (strEq clean2 "}"); simpl; [by apply closePending_upTo|done].
Qed.

Lemma structural_upTo st line : upToBody st → flowUpTo (structural st line).
Proof.
  intros Hst. unfold structural.
  destruct (_ || _); [done|].
  destruct (isBracket _); [|done].
  destruct (_ && _); simpl; [by apply closePending_upTo|done].
Qed.

Lemma beforeKey_upTo st line :
  stateUpTo st → 0 ≤ lineNo st → flowUpTo (beforeKey st line).
Proof.
  intros Hst Hn. unfold beforeKey.
  apply flowAll_bind; [by apply structural_upTo, nextLine_upTo|].
  intros st1 clean1 Hst1. by apply featureLine_upTo.
Qed.

Lemma enterSection_upTo st name : upToBody st → upToBody (enterSection st name).
Proof.
  intros [[[H1 H2 H3 H4 H5 H6 H7 H8] Hs Hf Hcur] Hl]. unfold enterSection, strEq.
  repeat case_bool_decide; subst;
    (split; [split; [split|..]|]); simpl in *; auto; try lia; try done.
  all: intros Hne; destruct (Hcur Hne); split; [done|lia].
Qed.

Lemma fieldsUpTo_insert n m key value :
  fieldsUpTo n m → fieldsUpTo n (<[key := fieldInfo.mk value n]> m).
Proof.
  intros Hm k f. rewrite lookup_insert. case_decide.
  - intros [= <-]. simpl. lia.
  - apply Hm.
Qed.

Lemma setMetadata_upTo st key value : upToBody st → upToBody (setMetadata st key value).
Proof.
  intros [[[H1 H2 H3 H4 H5 H6 H7 H8] Hs Hf Hcur] Hl]. unfold setMetadata.
  split; [split; [split|..]|]; simpl in *; auto.
  by apply fieldsUpTo_insert.
Qed.

Lemma setSettings_upTo st key value :
  upToBody st → section st = "settings" → upToBody (setSettings st key value).
Proof.
  intros [[[H1 H2 H3 H4 H5 H6 H7 H8] Hs Hf Hcur] Hl] Hsec. unfold setSettings.
  split; [split; [split|..]|]; simpl in *; auto.
  by apply fieldsUpTo_insert.
Qed.

Lemma setFeatureField_upTo st key value :
  upToBody st → section st = "features" → upToBody (setFeatureField st key value).
Proof.
  intros [[Hc Hs Hf Hcur] Hl] Hsec. unfold setFeatureField.
  split; [split|]; simpl; auto.
  intros _. split; [|by apply Hf].
  destruct (mapLen _ =? 0)%nat eqn:Hlen; simpl; [lia|].
  by apply Hcur, mapLen_nonzero.
Qed.

Lemma keyValueLine_upTo st clean : upToBody st → upToBody (keyValueLine st clean).
Proof.
  intros Hst. unfold keyValueLine.
  destruct (parseKeyValue clean) as [[key value] hasValue].
  destruct (strEq key EmptyString); [done|].
  destruct (if strEq (section st) EmptyString then headerOf key else None);
    [by apply enterSection_upTo|].
  destruct (headerOf key); [by apply enterSection_upTo|].
  destruct (strEq (section st) "metadata").
  { destruct hasValue; [by apply setMetadata_upTo|done]. }
  destruct (strEq (section st) "settings") eqn:Hs.
  { apply strEq_true in Hs. destruct hasValue; [by apply setSettings_upTo|done]. }
  destruct (strEq (section st) "features") eqn:Hf; [|done].
  apply strEq_true in Hf.
  destruct hasValue; simpl; [by apply setFeatureField_upTo|done].
Qed.

Lemma scanLine_upTo st line :
  stateUpTo st → 0 ≤ lineNo st → stateUpTo (scanLine st line).
Proof.
  intros Hst Hn. unfold scanLine.
  pose proof (beforeKey_upTo st line Hst Hn) as Hflow.
  destruct (beforeKey st line) as [st'|[st' clean]]; simpl in Hflow.
  - apply Hflow.
  - by apply keyValueLine_upTo.
Qed.

Lemma initState_upTo : stateUpTo initState.
Proof. split; [split|..]; simpl; done. Qed.

Lemma scan_upTo lines st :
  stateUpTo st → 0 ≤ lineNo st → stateUpTo (fold_left scanLine lines st).
Proof.
  revert st. induction lines as [|line rest IH]; intros st Hst Hn; simpl; [done|].
  apply IH; [by apply scanLine_upTo|].
  destruct (scanLine_lines st line) as [-> _]. lia.
Qed.

Lemma flushPending_cfgUpTo st :
  stateUpTo st → cfgUpTo (lineNo st) (cfg (flushPending st)).
Proof.
  intros [Hc Hs Hf Hcur]. unfold flushPending.
  destruct (pendingFields st) eqn:Hp; [|done].
  apply pendingFields_true in Hp. destruct (Hcur Hp) as [Hline Hseen]. simpl.
  by apply appendFeature_upTo.
Qed.

(** No recorded line is beyond the last line read, and settings and
    features are only there when their header was seen. *)
Lemma parseConfig_upTo data :
  cfgUpTo (Z.of_nat (length (scanLines data).1)) (parseConfig data).1.
Proof.
  unfold parseConfig. destruct (scanLines data) as [lines err]. simpl.
  pose proof (flushPending_cfgUpTo (fold_left scanLine lines initState)) as H.
  rewrite lineNo_count in H. simpl in H. apply H.
  by apply scan_upTo; [apply initState_upTo|].
Qed.

Lemma validateMetadata_within n cfg issue :
  cfgUpTo n cfg → issue ∈ validateMetadata cfg [] → Issue.Line issue ≤ Z.max 1 n.
Proof.
  intros [HL HM _ _ _ _ _ _]. unfold validateMetadata, report, mapGet.
  destruct (parsedConfig.Metadata cfg !! "name") as [name|] eqn:Hname;
    [apply HM in Hname|];
    (destruct (parsedConfig.Metadata cfg !! "env") as [env|] eqn:Henv;
     [apply HM in Henv|]);
    repeat case_match; simplify_eq; eqb_facts; simpl in *; intros Hin;
    each_issue Hin; simpl; lia.
Qed.

Lemma validateSettings_within n cfg issue :
  cfgUpTo n cfg → issue ∈ validateSettings cfg [] → Issue.Line issue ≤ Z.max 1 n.
Proof.
  intros [_ _ HL HS _ _ _ _]. unfold validateSettings, report, mapGet.
  destruct (parsedConfig.Settings cfg !! "replicas") as [replicas|] eqn:Hr;
    [apply HS in Hr|];
    (destruct (parsedConfig.Settings cfg !! "timeout") as [timeout|] eqn:Ht;
     [apply HS in Ht|]);
    repeat case_match; simplify_eq; eqb_facts; simpl in *; intros Hin;
    each_issue Hin; simpl; lia.
Qed.

Lemma validateFeature_line feature issue :
  issue ∈ validateFeature feature [] → Issue.Line issue = featureEntry.Line feature.
Proof.
  unfold validateFeature, report, mapGet.
  repeat case_match; simplify_eq; simpl; intros Hin; each_issue Hin; done.
Qed.

Lemma validateFeatures_within n cfg issue :
  cfgUpTo n cfg → issue ∈ validateFeatures cfg [] → Issue.Line issue ≤ Z.max 1 n.
Proof.
  intros [_ _ _ _ _ _ HF _]. unfold validateFeatures.
  rewrite validateFeatures_fold. simpl.
  induction HF as [|feature rest Hf _ IH]; simpl.
  - intros Hin. by apply elem_of_nil in Hin.
  - intros Hin. apply elem_of_app in Hin as [Hin|Hin]; [|by apply IH].
    apply validateFeature_line in Hin. lia.
Qed.

(** No issue points beyond the input: its line is at most the number of
    lines read (or 1, for an input without lines). *)
Theorem issue_lines_within_input data :
  Forall
    (fun issue => Issue.Line issue ≤ Z.max 1 (Z.of_nat (length (scanLines data).1)))
    (LintBytes data).1.
Proof.
  pose proof (parseConfig_upTo data) as Hup.
  rewrite LintBytes_unfold.
  destruct (parseConfig data).2; simpl; [constructor|].
  apply Forall_forall. intros issue Hin.
  apply elem_of_app in Hin as [Hin|Hin]; [|apply elem_of_app in Hin as [Hin|Hin]].
  - by eapply validateMetadata_within.
  - by eapply validateSettings_within.
  - by eapply validateFeatures_within.
Qed.

(** A section has content only under its header: without a metadata
    (settings, features) header line the parsed config has no metadata
    field (settings field, feature entry), so key-value lines before the
    first header are dropped and an input without features header has no
    features issue. *)
Theorem content_needs_header data :
  (parsedConfig.MetadataLine (parseConfig data).1 = 0 →
   parsedConfig.Metadata (parseConfig data).1 = ∅)
  ∧ (parsedConfig.SettingsLine (parseConfig data).1 = 0 →
     parsedConfig.Settings (parseConfig data).1 = ∅)
  ∧ (parsedConfig.FeaturesLine (parseConfig data).1 = 0 →
     parsedConfig.Features (parseConfig data).1 = []
     ∧ validateFeatures (parseConfig data).1 [] = []).
Proof.
  destruct (parseConfig_upTo data) as [_ _ _ _ Hset _ _ Hfeat].
  split; [apply no_header_no_metadata|]. split.
  - intros Hline.
    destruct (decide (parsedConfig.Settings (parseConfig data).1 = ∅)) as [|Hne];
      [done|].
    apply Hset in Hne. lia.
  - intros Hline.
    assert (parsedConfig.Features (parseConfig data).1 = []) as Hnone.
    { destruct (parsedConfig.Features (parseConfig data).1) as [|e l] eqn:Hl;
        [done|].
      assert (1 ≤ parsedConfig.FeaturesLine (parseConfig data).1) by by apply Hfeat.
      lia. }
    split; [done|]. unfold validateFeatures. by rewrite Hnone.
Qed.

(** A config that lacks nothing but settings.timeout has one issue, the
    Warning about the default of 30 with its fix, at the line of the
    settings header; it is fatal in strict mode only. *)
Theorem only_timeout_missing data :
  (parseConfig data).2 = None →
  onlyTimeoutMissing (parseConfig data).1 →
  LintBytes data = ([timeoutWarning (parseConfig data).1], None)
  ∧ 1 ≤ parsedConfig.SettingsLine (parseConfig data).1
  ∧ Callers.handleLintFatal false (LintBytes data).1 = false
  ∧ Callers.handleLintFatal true (LintBytes data).1 = true.
Proof.
  intros Herr (Hm & (replicas & Hr & Hrp) & Ht & Hf).
  destruct (parseConfig_upTo data) as [_ _ _ _ Hset _ _ _].
  assert (1 ≤ parsedConfig.SettingsLine (parseConfig data).1) as Hline.
  { apply Hset. intros Hempty. by rewrite Hempty, lookup_empty in Hr. }
  assert (LintBytes data = ([timeoutWarning (parseConfig data).1], None)) as Hlint.
  { rewrite LintBytes_unfold, Herr, (validMetadata_no_issue _ Hm). simpl.
    assert (validateFeatures (parseConfig data).1 [] = []) as ->.
    { unfold validateFeatures. rewrite validateFeatures_fold. simpl.
      induction Hf as [|feature rest Hfeat _ IH]; simpl; [done|].
      by rewrite (validFeature_no_issue _ Hfeat). }
    rewrite app_nil_r. f_equal.
    unfold validateSettings, mapGet, report, timeoutWarning.
    rewrite (lookup_mapLen _ _ _ Hr), Hr, Ht, Hrp. simpl.
    destruct (parsedConfig.SettingsLine (parseConfig data).1 =? 0) eqn:Hz;
      [apply Z.eqb_eq in Hz; lia|done]. }
  split; [done|]. split; [done|]. rewrite Hlint. simpl. done.
Qed.

Lemma only_timeout_missing_witness :
  LintBytes noTimeout
  = ([Issue.mk 4 SeverityWarning "settings.timeout is missing; defaulting to 30"
        "Add settings.timeout: 30"], None).
Proof.
  destruct (only_timeout_missing noTimeout) as [Hlint _].
  - vm_compute. reflexivity.
  - split; [|split; [|split]].
    + split; eexists; (split; [vm_compute; reflexivity|]); simpl; [done|].
      unfold allowedEnvironments. do 2 apply list_elem_of_further.
      apply list_elem_of_here.
    + eexists. split; [vm_compute; reflexivity|]. vm_compute. reflexivity.
    + vm_compute. reflexivity.
    + assert (parsedConfig.Features (parseConfig noTimeout).1 = []) as ->
        by (vm_compute; reflexivity).
      constructor.
  - rewrite Hlint. vm_compute. reflexivity.
Defined.

End ScanFacts.

(* ===================================================================== *)
(** ** Line endings, keys and values *)
(* ===================================================================== *)
Module TextFacts.
Import GoLib Linter Spec Notions.
Import CallerFacts JsonFacts.

(** *** Carriage returns *)

Lemma dropCR_plain pending : noCRFirst pending → dropCR pending = rev pending.
Proof.
  destruct pending as [|c r]; simpl; [done|].
  intros Hc. apply Ascii.eqb_neq in Hc. by rewrite Hc.
Qed.

Lemma scanFrom_crlf data pending n :
  noCR data → noCRFirst pending →
  Forall (fun k => (k + 1 < MaxScanTokenSize)%N) (lineLengths data n) →
  scanFrom (toCRLF data) pending n = scanFrom data pending n.
Proof.
  revert pending n. induction data as [|c data IH]; intros pending n; simpl; [done|].
  intros [Hc Hdata] Hpending Hall.
  destruct (Ascii.eqb c newline) eqn:Hnl.
  - apply Forall_cons in Hall as [Hn Hall].
    cbn [scanFrom].
    assert (Ascii.eqb carriageReturn newline = false) as -> by done.
    assert ((MaxScanTokenSize <=? n + 1)%N = false) as ->
      by (apply N.leb_gt; lia).
    assert (Ascii.eqb newline newline = true) as -> by done.
    rewrite (IH EmptyString 0%N) by done.
    assert (dropCR (String carriageReturn pending) = dropCR pending) as ->; [|done].
    by rewrite (dropCR_plain pending Hpending).
  - cbn [scanFrom]. rewrite Hnl.
    destruct (MaxScanTokenSize <=? n + 1)%N; [done|].
    by apply IH.
Qed.

(** Windows line endings make no difference: for an input without carriage
    returns whose lines leave room for one more byte, the input with CR LF
    for every LF is scanned to the same lines and has the same lint
    result. *)
Theorem crlf_same_result data :
  noCR data →
  Forall (fun k => (k + 1 < MaxScanTokenSize)%N) (lineLengths data 0) →
  scanLines (toCRLF data) = scanLines data
  ∧ LintBytes (toCRLF data) = LintBytes data.
Proof.
  intros Hcr Hall.
  assert (scanLines (toCRLF data) = scanLines data) as Hscan.
  { unfold scanLines. by apply scanFrom_crlf. }
  split; [done|]. unfold LintBytes, parseConfig. by rewrite Hscan.
Qed.

Lemma crlf_same_result_witness :
  toCRLF "a:
b" = String "a" (String ":" (String carriageReturn (String newline "b")))
  ∧ LintBytes (toCRLF scenarioA) = LintBytes scenarioA.
Proof.
  split; [vm_compute; reflexivity|].
  apply (crlf_same_result scenarioA).
  - unfold scenarioA. simpl.
    repeat split; intros H; vm_compute in H; discriminate.
  - apply (bool_decide_unpack _). vm_compute. exact I.
Defined.

(** *** parseKeyValue *)

Lemma append_assoc_s a b c : (a +:+ b) +:+ c = a +:+ (b +:+ c).
Proof.
  induction a as [|x a IH]; [done|]. rewrite !app_cons. by rewrite IH.
Qed.

Lemma revOnto_app s acc : revOnto s acc = revOnto s EmptyString +:+ acc.
Proof.
  revert acc. induction s as [|c s IH]; intros acc; simpl; [done|].
  rewrite (IH (String c acc)), (IH (String c EmptyString)).
  by rewrite append_assoc_s.
Qed.

Lemma rev_cons h t : rev (String h t) = rev t +:+ String h EmptyString.
Proof. unfold rev. simpl. apply revOnto_app. Qed.

Lemma revOnto_snoc y h acc :
  revOnto (y +:+ String h EmptyString) acc = String h (revOnto y acc).
Proof.
  revert acc. induction y as [|c y IH]; intros acc; [done|].
  rewrite app_cons. simpl. apply IH.
Qed.

Lemma trimLeftCut_head cut s c r :
  trimLeftCut cut s = String c r → inCutset cut c = false.
Proof.
  induction s as [|x s IH]; simpl; [done|].
  destruct (inCutset cut x) eqn:Hx; [done|]. by intros [= <- _].
Qed.

Lemma trimLeftCut_snoc cut x h :
  inCutset cut h = false →
  ∃ y, trimLeftCut cut (x +:+ String h EmptyString) = y +:+ String h EmptyString.
Proof.
  intros Hh. induction x as [|c x IH].
  - exists EmptyString. simpl. by rewrite Hh.
  - rewrite app_cons. simpl. destruct (inCutset cut c); [done|].
    exists (String c x). by rewrite app_cons.
Qed.

(** strings.Trim leaves no byte of the cutset at the start. *)
Lemma Trim_head s cut c r : Trim s cut = String c r → inCutset cut c = false.
Proof.
  unfold Trim.
  destruct (trimLeftCut cut s) as [|h t] eqn:Ha; [done|].
  pose proof (trimLeftCut_head cut s h t Ha) as Hh.
  rewrite rev_cons.
  destruct (trimLeftCut_snoc cut (rev t) h Hh) as [y ->].
  unfold rev at 1. rewrite revOnto_snoc. by intros [= <- _].
Qed.

Lemma quotes_cutset c :
  inCutset (String dquote "'") c = false → c ≠ dquote ∧ c ≠ "'"%char.
Proof.
  cbn [inCutset]. rewrite orb_false_r, orb_false_iff, !Ascii.eqb_neq.
  intros [? ?]. split; congruence.
Qed.

Lemma Trim_unquoted s : unquotedStart (Trim s (String dquote "'")).
Proof.
  intros c r Heq. by apply quotes_cutset, (Trim_head s _ c r).
Qed.

(** parseKeyValue finds a key only on a line with a colon; the key and the
    value it returns never start with a quote character, and the value is
    never a lone opening brace or bracket.  So the quoted alternatives of
    the section switch never match: a header key is the bare section
    name. *)
Theorem parseKeyValue_unquoted line key value hasValue :
  parseKeyValue line = (key, value, hasValue) →
  unquotedStart key ∧ unquotedStart value
  ∧ value ≠ "{" ∧ value ≠ "["
  ∧ (hasValue = false → key = EmptyString ∧ value = EmptyString)
  ∧ (∀ name, headerOf key = Some name → key = name).
Proof.
  unfold parseKeyValue.
  destruct (cutAt ":" line) as [[before after]|].
  - intros [= <- <- <-].
    pose proof (Trim_unquoted (TrimSpace before)) as Hkey.
    pose proof (Trim_unquoted (TrimSpace after)) as Hvalue.
    split; [done|]. unfold strEq.
    split; [by repeat case_bool_decide|].
    split; [by repeat case_bool_decide|].
    split; [by repeat case_bool_decide|].
    split; [done|].
    intros name. unfold headerOf, strEq, quoted.
    repeat case_bool_decide; intros [= <-]; try done;
      match goal with
      | H : Trim _ _ = String dquote _ |- _ => by destruct (Hkey _ _ H)
      end.
  - intros [= <- <- <-]. repeat split; try done.
Qed.

Lemma parseKeyValue_unquoted_witness :
  parseKeyValue "'metadata': {" = ("metadata", EmptyString, true)
  ∧ (∀ name, headerOf "metadata" = Some name → "metadata" = name).
Proof.
  assert (parseKeyValue "'metadata': {" = ("metadata", EmptyString, true)) as Hkv
    by (vm_compute; reflexivity).
  split; [exact Hkv|].
  apply (parseKeyValue_unquoted "'metadata': {" "metadata" EmptyString true Hkv).
Defined.

(** *** The scanner loses nothing but line terminators *)

Lemma append_empty_r a : a +:+ EmptyString = a.
Proof. induction a as [|x a IH]; [done|]. by rewrite app_cons, IH. Qed.

Lemma scanFrom_join data pending n :
  noCR data → noCRFirst pending →
  (n = 0%N ↔ pending = EmptyString) →
  (scanFrom data pending n).2 = None →
  rev pending +:+ data = Join (scanFrom data pending n).1 lineFeed
  ∨ rev pending +:+ data = Join (scanFrom data pending n).1 lineFeed +:+ lineFeed.
Proof.
  revert pending n. induction data as [|c data IH]; intros pending n; simpl.
  - intros _ Hp Hn _. left. rewrite append_empty_r.
    destruct (n =? 0)%N eqn:Hz; simpl.
    + apply N.eqb_eq in Hz. apply Hn in Hz. by subst.
    + by rewrite dropCR_plain.
  - intros [Hc Hdata] Hp Hn.
    destruct (Ascii.eqb c newline) eqn:Hnl.
    + apply Ascii.eqb_eq in Hnl. subst c.
      specialize (IH EmptyString 0%N Hdata I (conj (fun _ => eq_refl) (fun _ => eq_refl))).
      destruct (scanFrom data EmptyString 0%N) as [tokens err] eqn:Hscan.
      simpl in *. intros Herr. specialize (IH Herr).
      rewrite (dropCR_plain pending Hp).
      destruct tokens as [|t tokens].
      * right. simpl.
        assert (data = EmptyString) as ->; [|done].
        destruct IH as [IH|IH]; [done|].
        change (data = lineFeed) in IH. subst data. by vm_compute in Hscan.
      * change (data = Join (t :: tokens) lineFeed
                ∨ data = Join (t :: tokens) lineFeed +:+ lineFeed) in IH.
        destruct IH as [IH|IH]; [left|right];
          rewrite ?append_assoc_s; by rewrite <- IH.
    + destruct (MaxScanTokenSize <=? n + 1)%N; [done|].
      intros Herr.
      assert (rev pending +:+ String c data = rev (String c pending) +:+ data) as ->.
      { rewrite rev_cons, append_assoc_s. done. }
      apply IH; try done.
      split; [lia|done].
Qed.

(** The scanner loses nothing but line terminators: for an input without
    carriage returns that it scans without error, joining the lines with
    line feeds gives the input back, up to one final line feed. *)
Theorem scanLines_join data :
  noCR data → (scanLines data).2 = None →
  data = Join (scanLines data).1 lineFeed
  ∨ data = Join (scanLines data).1 lineFeed +:+ lineFeed.
Proof.
  intros Hcr Herr. unfold scanLines in *.
  by apply (scanFrom_join data EmptyString 0%N).
Qed.

Lemma scanLines_join_witness :
  scenarioB = Join (scanLines scenarioB).1 lineFeed +:+ lineFeed.
Proof.
  destruct (scanLines_join scenarioB) as [H|H]; [| |by vm_compute in H|exact H].
  - unfold scenarioB. simpl.
    repeat split; intros H; vm_compute in H; discriminate.
  - vm_compute. reflexivity.
Defined.

End TextFacts.

(* ===================================================================== *)
(** ** What is reported for a faulty section *)
(* ===================================================================== *)
Module ReportFacts.
Import GoLib Linter Callers Spec Notions.
Import CallerFacts ParserFacts ValidatorFacts IssueFacts LintFacts SeverityFacts.

Lemma error_is_fatal strict issues issue :
  issue ∈ issues → Issue.Severity issue = SeverityError →
  lintOneFatal strict issues = true ∧ handleLintFatal strict issues = true.
Proof.
  intros Hin Hsev. rewrite lintOneFatal_exists, handleLintFatal_exists.
  assert (existsb (escalates strict) issues = true) as H; [|done].
  apply existsb_escalates. left. by exists issue.
Qed.

(** In an input that is scanned without error, a settings.replicas of 0,
    or one that is no integer at all, is reported as an Error at the line
    of the field, and the run is fatal for both callers, strict or not:
    the loops of both set the fatal flag, lintOne returns fatal = true, main
    exits 2 for that file, and handleLint answers 200 with fatal = true to
    a config that is not blank. *)
Theorem bad_replicas_reported data replicas strict :
  (parseConfig data).2 = None →
  parsedConfig.Settings (parseConfig data).1 !! "replicas" = Some replicas →
  fieldInfo.Value replicas = "0" ∨ Atoi (fieldInfo.Value replicas) = None →
  replicasError (fieldInfo.Line replicas) ∈ (LintBytes data).1
  ∧ lintOneFatal strict (LintBytes data).1 = true
  ∧ handleLintFatal strict (LintBytes data).1 = true
  ∧ lintOne strict (Some data) = (true, None)
  ∧ Cli.main strict [Some data] = 2
  ∧ (∀ suggest, TrimSpace data ≠ EmptyString →
       handleLint (Some (mkRequest data strict suggest))
       = StatusOK (LintBytes data).1 strict true).
Proof.
  intros Herr Hr Hbad.
  assert (replicasError (fieldInfo.Line replicas) ∈ (LintBytes data).1) as Hin.
  { rewrite LintBytes_unfold, Herr. simpl.
    apply elem_of_app. right. apply elem_of_app. left.
    assert (isPositiveInt (fieldInfo.Value replicas) = false) as Hno.
    { unfold isPositiveInt, strEq. destruct Hbad as [-> | ->]; [done|].
      by case_bool_decide. }
    unfold validateSettings, mapGet, report.
    rewrite (lookup_mapLen _ _ _ Hr), Hr, Hno. simpl.
    repeat case_match; apply elem_of_cons; by left. }
  destruct (error_is_fatal strict _ _ Hin eq_refl) as [Hone Hhandle].
  assert (lintOne strict (Some data) = (true, None)) as Hrun
    by by rewrite (lintOne_scanned strict data Herr), Hone.
  split; [done|]. split; [done|]. split; [done|]. split; [done|].
  split; [by rewrite (main_single strict data true Hrun)|].
  intros fix_ Hblank.
  by rewrite (handleLint_scanned strict fix_ data Herr Hblank), Hhandle.
Qed.

Lemma bad_replicas_reported_witness :
  replicasError 5 ∈ (LintBytes scenarioA).1
  ∧ lintOneFatal false (LintBytes scenarioA).1 = true
  ∧ handleLintFatal false (LintBytes scenarioA).1 = true
  ∧ lintOne false (Some scenarioA) = (true, None)
  ∧ Cli.main false [Some scenarioA] = 2.
Proof.
  destruct (bad_replicas_reported scenarioA (fieldInfo.mk "0" 5) false)
    as (Hin & Hone & Hhandle & Hrun & Hmain & _).
  - vm_compute. reflexivity.
  - vm_compute. reflexivity.
  - by left.
  - by repeat split.
Defined.

(** In an input that is scanned without error, a non-empty metadata section
    without a name is reported as an Error at the line of the metadata
    header, and one with an empty name at the line of the name field. *)
Theorem missing_name_reported data :
  (parseConfig data).2 = None →
  parsedConfig.Metadata (parseConfig data).1 ≠ ∅ →
  match parsedConfig.Metadata (parseConfig data).1 !! "name" with
  | None =>
      1 ≤ parsedConfig.MetadataLine (parseConfig data).1
      ∧ nameError (parsedConfig.MetadataLine (parseConfig data).1) ∈ (LintBytes data).1
  | Some name =>
      fieldInfo.Value name = EmptyString →
      nameError (fieldInfo.Line name) ∈ (LintBytes data).1
  end.
Proof.
  intros Herr Hne.
  destruct (parseConfig_ok data) as [HL HM Hseen _ _ _].
  specialize (Hseen Hne).
  assert (∀ line,
            nameError line ∈ validateMetadata (parseConfig data).1 [] →
            nameError line ∈ (LintBytes data).1) as Hlift.
  { intros line Hin. rewrite LintBytes_unfold, Herr. simpl.
    apply elem_of_app. by left. }
  apply mapLen_nonzero in Hne.
  destruct (parsedConfig.Metadata (parseConfig data).1 !! "name") as [name|] eqn:Hname.
  - intros Hempty. apply Hlift.
    apply HM in Hname as Hline.
    unfold validateMetadata, mapGet, report. rewrite Hne, Hname, Hempty. simpl.
    assert ((fieldInfo.Line name =? 0) = false) as -> by (apply Z.eqb_neq; lia).
    repeat case_match; apply elem_of_cons; by left.
  - split; [done|]. apply Hlift.
    unfold validateMetadata, mapGet, report. rewrite Hne, Hname. simpl.
    assert ((parsedConfig.MetadataLine (parseConfig data).1 =? 0) = false) as ->
      by (apply Z.eqb_neq; lia).
    repeat case_match; apply elem_of_cons; by left.
Qed.

Lemma missing_name_reported_witness :
  1 ≤ parsedConfig.MetadataLine (parseConfig scenarioA).1
  ∧ nameError 2 ∈ (LintBytes scenarioA).1.
Proof.
  pose proof (missing_name_reported scenarioA) as H.
  assert (parsedConfig.Metadata (parseConfig scenarioA).1 !! "name" = None) as Hname
    by (vm_compute; reflexivity).
  rewrite Hname in H. apply H.
  - vm_compute. reflexivity.
  - intros Hempty.
    assert (parsedConfig.Metadata (parseConfig scenarioA).1 !! "env"
            = Some (fieldInfo.mk "unknown" 3)) as Henv by (vm_compute; reflexivity).
    by rewrite Hempty, lookup_empty in Henv.
Defined.

(** *** How many issues *)

Lemma validateMetadata_count cfg : (length (validateMetadata cfg []) ≤ 2)%nat.
Proof.
  unfold validateMetadata, report, mapGet. repeat case_match; rewrite ?length_app; simpl; lia.
Qed.

Lemma validateSettings_count cfg : (length (validateSettings cfg []) ≤ 2)%nat.
Proof.
  unfold validateSettings, report, mapGet. repeat case_match; rewrite ?length_app; simpl; lia.
Qed.

Lemma validateFeature_count feature : (length (validateFeature feature []) ≤ 2)%nat.
Proof.
  unfold validateFeature, report, mapGet. repeat case_match; rewrite ?length_app; simpl; lia.
Qed.

(** A lint result has at most two issues for the metadata section, two for
    the settings section and two for each feature entry. *)
Theorem issue_count_bound data :
  (length (LintBytes data).1
   ≤ 4 + 2 * length (parsedConfig.Features (parseConfig data).1))%nat.
Proof.
  rewrite LintBytes_unfold. destruct (parseConfig data).2; simpl; [lia|].
  rewrite !length_app.
  pose proof (validateMetadata_count (parseConfig data).1).
  pose proof (validateSettings_count (parseConfig data).1).
  assert (length (validateFeatures (parseConfig data).1 [])
          ≤ 2 * length (parsedConfig.Features (parseConfig data).1))%nat; [|lia].
  unfold validateFeatures. rewrite validateFeatures_fold. simpl.
  induction (parsedConfig.Features (parseConfig data).1) as [|feature rest IH];
    [simpl; lia|].
  rewrite fmap_cons, concat_cons, length_app, length_cons.
  pose proof (validateFeature_count feature). lia.
Qed.

End ReportFacts.
